(** * dnora: grid filters, meshers, wind forcing and its SWAN writer

    A shallow embedding of the Python sources

      - [grd/mod.py]            (TrivialFilter, SetMinDepth)
      - [dnora/grd/mesh.py]     (Interpolate, Constant)
      - [dnora/wnd/wnd_mod.py]  (Forcing)
      - [dnora/wnd/write.py]    (SWAN)

    numpy arrays are a shape with a row-major buffer of binary64 values,
    arrays that are passed around live in a store so that copying and
    in-place assignment are told apart, and Python exceptions are an
    explicit result. *)

From Stdlib Require Import ZArith List String Ascii Bool Lia Floats.
From stdpp Require Import gmap strings list pretty.

Open Scope Z_scope.

(** ** binary64 values *)

Module F64.

(** [x > y] on floats; false as soon as one side is NaN. *)
Definition gt (x y : float) : bool := PrimFloat.ltb y x.

(** [x >= y]. *)
Definition ge (x y : float) : bool := PrimFloat.leb y x.

Definition zero : float := 0%float.

(** [x * 1000]. *)
Definition scale1000 (x : float) : float := PrimFloat.mul x 1000%float.

End F64.

(** ** Exceptions and effects *)

Inductive exn : Type :=
  | ValueError | IndexError | KeyError | NameError | OverflowError
  | TypeError
  | Lib (msg : string).

Inductive result (A : Type) : Type :=
  | Ok (a : A)
  | Raise (e : exn).
Arguments Ok {A} a.
Arguments Raise {A} e.

(** A computation over a state [S] that may raise; the state reached is kept
    when it raises, as in Python. *)
Definition Eff (S A : Type) : Type := S -> S * result A.

Definition ret {S A} (a : A) : Eff S A := fun s => (s, Ok a).

Definition bind {S A B} (m : Eff S A) (k : A -> Eff S B) : Eff S B :=
  fun s =>
    match m s with
    | (s', Ok a) => k a s'
    | (s', Raise e) => (s', Raise e)
    end.

Declare Scope eff_scope.
Delimit Scope eff_scope with eff.
Bind Scope eff_scope with Eff.

Notation "x <- m ;; k" := (bind m (fun x => k))
  (at level 100, m at next level, right associativity) : eff_scope.

Definition raise {S A} (e : exn) : Eff S A := fun s => (s, Raise e).

Definition lift {S A} (r : result A) : Eff S A := fun s => (s, r).

(** ** numpy arrays *)

Module Np.

Record ndarray (A : Type) : Type := NdArray {
  shape : list nat;
  flat : list A
}.
Arguments NdArray {A} shape flat.
Arguments shape {A} _.
Arguments flat {A} _.

(** Number of elements a shape holds. *)
Definition size_of (sh : list nat) : nat := foldr Nat.mul 1%nat sh.

(** [a > x] with a scalar. *)
Definition gt_scalar (a : ndarray float) (x : float) : ndarray bool :=
  NdArray (shape a) (map (fun d => F64.gt d x) (flat a)).

(** [np.logical_not]. *)
Definition logical_not (a : ndarray bool) : ndarray bool :=
  NdArray (shape a) (map negb (flat a)).

(** The buffer after [a[sel] = v]. *)
Fixpoint putmask (sel : list bool) (xs : list float) (v : float)
  : list float :=
  match xs with
  | [] => []
  | x :: xs' =>
      match sel with
      | [] => xs
      | b :: sel' => (if b then v else x) :: putmask sel' xs' v
      end
  end.

(** [np.full(sh, v)]. *)
Definition full (sh : list nat) (v : float) : ndarray float :=
  NdArray sh (replicate (size_of sh) v).

(** [np.array([])]. *)
Definition empty : ndarray float := NdArray [0%nat] [].

(** *** The store of arrays *)

Definition loc : Type := positive.

Abbreviation heap := (gmap loc (ndarray float)).

Definition deref (l : loc) : Eff heap (ndarray float) :=
  fun h => match h !! l with
           | Some a => (h, Ok a)
           | None => (h, Raise NameError)
           end.

Definition alloc (a : ndarray float) : Eff heap loc :=
  fun h => let l := fresh (dom h) in (<[l := a]> h, Ok l).

Definition store (l : loc) (a : ndarray float) : Eff heap unit :=
  fun h => (<[l := a]> h, Ok tt).

(** [copy(a)] on an array: a new array with the same contents. *)
Definition copy (l : loc) : Eff heap loc :=
  (a <- deref l ;; alloc a)%eff.

(** [a[sel] = v] with a boolean index array: in place. *)
Definition setitem_mask (l : loc) (sel : ndarray bool) (v : float)
  : Eff heap unit :=
  (a <- deref l ;;
   if decide (shape sel = shape a)
   then store l (NdArray (shape a) (putmask (flat sel) (flat a) v))
   else raise IndexError)%eff.

(** The rows of [np.column_stack((X.ravel(), Y.ravel()))] for
    [X, Y = np.meshgrid(x, y)]: one row per grid point, the points of the
    first [y] first, each row the pair of an [x] and a [y]. *)
Definition meshgrid_rows (x y : list float) : list (float * float) :=
  flat_map (fun yi => map (fun xj => (xj, yi)) x) y.

(** The rows a boolean index keeps, in their order. *)
Fixpoint compress {A} (mask : list bool) (rows : list A) : list A :=
  match mask, rows with
  | b :: mask', r :: rows' =>
      if b then r :: compress mask' rows' else compress mask' rows'
  | _, _ => []
  end.

(** [rows[mask]] with a one-dimensional boolean [mask]: its length must be
    the number of rows. *)
Definition boolean_index {A} (rows : list A) (mask : list bool)
  : result (list A) :=
  if decide (length mask = length rows)
  then Ok (compress mask rows)
  else Raise IndexError.

End Np.

(** ** Grid filters ([grd/mod.py]) *)

Module Grd.
Import Np.

(** [TrivialFilter.__call__]. *)
Definition TrivialFilter_call (data : loc) (land_sea_mask : ndarray bool)
  : Eff heap loc :=
  copy data.

Record SetMinDepth : Type := {
  min_depth : float;
  to_land : float
}.

(** The global name [np] as a call looks it up: the module imports [ABC],
    [abstractmethod], [msg] and [copy] and never binds [np], so the lookup
    raises NameError. *)
Definition global_np {S} : Eff S unit := raise NameError.

(** [SetMinDepth.__call__]; the [msg.info] lines only print.  In either
    branch the copy is made and then the subscript [np.logical_and(...)] of
    the assignment is evaluated, where the name [np] is looked up: the
    assignment and the lines after it are never reached. *)
Definition SetMinDepth_call (self : SetMinDepth) (data : loc)
    (land_sea_mask : ndarray bool) : Eff heap loc :=
  (d <- deref data ;;
   let shallow_points := gt_scalar d (min_depth self) in
   if F64.ge (to_land self) F64.zero then
     new_data <- copy data ;;
     _ <- global_np ;;
     ret new_data
   else
     new_data <- copy data ;;
     _ <- global_np ;;
     ret new_data)%eff.

End Grd.

(** ** Meshers ([dnora/grd/mesh.py]) *)

Module Mesh.
Import Np.

(** [np.column_stack((data, lon, lat))] for the one-dimensional arrays of
    the documented interface: one row per sample.  The three lengths must
    agree; arrays of another rank are not modelled and are rejected. *)
Definition column_stack (a b c : ndarray float)
  : result (list (float * (float * float))) :=
  match shape a, shape b, shape c with
  | [_], [_], [_] =>
      if decide (length (flat a) = length (flat b)
                 /\ length (flat b) = length (flat c))
      then Ok (zip (flat a) (zip (flat b) (flat c)))
      else Raise ValueError
  | _, _, _ => Raise ValueError
  end.

Record Interpolate : Type := { method : string }.

Record Constant : Type := { val : float }.

Section Interpolation.

(** [scipy.interpolate.griddata(points, values, (lonQ, latQ), method)]:
    the library routine, which may raise. *)
Variable griddata :
  list (float * float) -> list float -> ndarray float -> ndarray float ->
  string -> result (ndarray float).

(** [Interpolate.__call__]. *)
Definition Interpolate_call (self : Interpolate) (data : loc)
    (lon lat lonQ latQ : ndarray float) : Eff heap (ndarray float) :=
  (d <- deref data ;;
   _ <- setitem_mask data (logical_not (gt_scalar d F64.zero)) F64.zero ;;
   d' <- deref data ;;
   M <- lift (column_stack d' lon lat) ;;
   lift (griddata (map snd M) (map fst M) lonQ latQ (method self)))%eff.

End Interpolation.

(** [Constant.__call__]. *)
Definition Constant_call (self : Constant) (data : loc)
    (lon lat lonQ latQ : ndarray float) : Eff heap loc :=
  (d <- deref data ;;
   alloc (full (shape d) (val self)))%eff.

End Mesh.

(** ** Python and pandas helpers *)

Module Py.

(** [int(x)] on a float: truncation toward zero; NaN and the infinities
    raise. *)
Definition int_of_float (x : float) : result Z :=
  match Prim2SF x with
  | S754_zero _ => Ok 0
  | S754_finite s m e =>
      let a := if 0 <=? e then Z.pos m * 2 ^ e else Z.pos m / 2 ^ (- e) in
      Ok (if s then - a else a)
  | S754_infinity _ => Raise OverflowError
  | S754_nan => Raise ValueError
  end.

(** ['%i' % x]. *)
Definition format_i (x : float) : result string :=
  match int_of_float x with
  | Ok z => Ok (pretty z)
  | Raise e => Raise e
  end.

(** [sep.join(l)]. *)
Fixpoint join (sep : string) (l : list string) : string :=
  match l with
  | [] => ""
  | [x] => x
  | x :: l' => x +:+ sep +:+ join sep l'
  end.

(** All results of a list, or the first exception. *)
Fixpoint sequence {A} (l : list (result A)) : result (list A) :=
  match l with
  | [] => Ok []
  | Ok a :: l' =>
      match sequence l' with
      | Ok r => Ok (a :: r)
      | Raise e => Raise e
      end
  | Raise e :: _ => Raise e
  end.

(** [re.sub(pat, rep, s)] for a literal, non-empty [pat]: the leftmost
    occurrences, not overlapping.  [skip] counts the characters of a match
    still to drop. *)
Fixpoint sub_from (pat rep : string) (skip : nat) (s : string) : string :=
  match s with
  | EmptyString => EmptyString
  | String c s' =>
      match skip with
      | S k => sub_from pat rep k s'
      | O =>
          if String.prefix pat s
          then rep +:+ sub_from pat rep (String.length pat - 1) s'
          else String c (sub_from pat rep 0 s')
      end
  end.

Definition sub (pat rep s : string) : string :=
  match pat with
  | EmptyString => s
  | _ => sub_from pat rep 0 s
  end.

(** A time stamp to the second, as its calendar fields. *)
Record Timestamp : Type := {
  year : Z; month : Z; day : Z;
  hour : Z; minute : Z; second : Z
}.

(** Chronological order through a key that is monotone in the fields. *)
Definition key (t : Timestamp) : Z :=
  ((((year t * 13 + month t) * 32 + day t) * 24 + hour t) * 60
   + minute t) * 60 + second t.

Definition ltb (a b : Timestamp) : bool := key a <? key b.
Definition leb (a b : Timestamp) : bool := key a <=? key b.

(** A field zero-padded to [w] digits. *)
Definition padded (w : nat) (n : Z) : string :=
  let s := pretty n in
  string_of_list_ascii (repeat "0"%char (w - String.length s)) +:+ s.

Definition directive (c : ascii) (t : Timestamp) : string :=
  if Ascii.eqb c "Y" then padded 4 (year t)
  else if Ascii.eqb c "m" then padded 2 (month t)
  else if Ascii.eqb c "d" then padded 2 (day t)
  else if Ascii.eqb c "H" then padded 2 (hour t)
  else if Ascii.eqb c "M" then padded 2 (minute t)
  else if Ascii.eqb c "S" then padded 2 (second t)
  else String "%" (String c EmptyString).

(** [t.strftime(fmt)] for the directives the repository uses. *)
Fixpoint strftime (fmt : string) (t : Timestamp) : string :=
  match fmt with
  | EmptyString => EmptyString
  | String c rest =>
      if Ascii.eqb c "%" then
        match rest with
        | String d rest' => directive d t +:+ strftime rest' t
        | EmptyString => String c EmptyString
        end
      else String c (strftime rest t)
  end.

(** [index.searchsorted(x, side='left')] on an increasing index: the
    number of leading entries before [x]. *)
Fixpoint searchsorted_left (ts : list Timestamp) (x : Timestamp) : nat :=
  match ts with
  | [] => 0%nat
  | t :: ts' => if ltb t x then S (searchsorted_left ts' x) else 0%nat
  end.

(** [index.searchsorted(x, side='right')]: the number of leading entries
    up to and including [x]. *)
Fixpoint searchsorted_right (ts : list Timestamp) (x : Timestamp) : nat :=
  match ts with
  | [] => 0%nat
  | t :: ts' => if leb t x then S (searchsorted_right ts' x) else 0%nat
  end.

(** [l[lo:hi]]. *)
Definition islice {A} (lo hi : nat) (l : list A) : list A :=
  take (hi - lo) (drop lo l).

(** The index is increasing, which label slicing relies on. *)
Fixpoint is_monotonic_increasing (ts : list Timestamp) : bool :=
  match ts with
  | [] => true
  | t :: ts' =>
      match ts' with
      | [] => true
      | t' :: _ => leb t t' && is_monotonic_increasing ts'
      end
  end.

End Py.

(** ** File-name helpers ([dnora/aux.py], not among the sources) *)

Module Aux.
Import Py.

(** Modelled from the spec: [aux.create_filename_obj] is missing.  Every
    object stands for the placeholder of its class name ([$Grid],
    [$Forcing]), which is substituted by the object's name.  An object is
    given as its class name and its name. *)
Fixpoint create_filename_obj (filestring : string)
    (objects : list (string * string)) : string :=
  match objects with
  | [] => filestring
  | (cls, name) :: rest =>
      create_filename_obj (sub (String "$" cls) name filestring) rest
  end.

(** Modelled from the spec: [aux.create_filename_time] is missing.  The
    n-th time stands for the placeholder [$Tn] and is substituted in the
    format [datestring]. *)
Fixpoint create_filename_time_from (n : nat) (filestring : string)
    (times : list Timestamp) (datestring : string) : string :=
  match times with
  | [] => filestring
  | t :: rest =>
      create_filename_time_from (S n)
        (sub ("$T" +:+ pretty n) (strftime datestring t) filestring)
        rest datestring
  end.

(** [aux.create_filename_time]: the times count from [$T0]. *)
Definition create_filename_time (filestring : string)
    (times : list Timestamp) (datestring : string) : string :=
  create_filename_time_from 0 filestring times datestring.

(** Modelled from the spec: [aux.clean_filename] is missing.  Every
    placeholder of the list that is still in the name is stripped. *)
Fixpoint clean_filename (filename : string)
    (list_of_placeholders : list string) : string :=
  match list_of_placeholders with
  | [] => filename
  | p :: rest => clean_filename (sub p "" filename) rest
  end.

End Aux.

(** ** The wind forcing ([dnora/wnd/wnd_mod.py]) *)

Module Forcing.
Import Np Py Aux.

(** One time step of a wind component: rows are latitudes. *)
Definition field : Type := list (list float).

(** The imported dataset: the time coordinate, the two wind components
    along it, and the horizontal coordinates when the reader gave them.
    The coordinates are arrays of the store; [u] and [v] are only ever read
    through copies and are kept as values. *)
Record Dataset : Type := {
  ds_time : list Timestamp;
  ds_u : list field;
  ds_v : list field;
  ds_lon : option loc;
  ds_lat : option loc
}.

Record t : Type := {
  grid_name : string;
  _name : string;
  start_time : Timestamp;
  end_time : Timestamp;
  data : Dataset
}.

Definition name (self : t) : string := _name self.

Definition time (self : t) : list Timestamp := ds_time (data self).

Definition u (self : t) : list field := ds_u (data self).

Definition v (self : t) : list field := ds_v (data self).

(** [Forcing.lon]. *)
Definition lon (self : t) : Eff heap loc :=
  match ds_lon (data self) with
  | Some l => copy l
  | None => alloc Np.empty
  end.

(** [Forcing.lat]. *)
Definition lat (self : t) : Eff heap loc :=
  match ds_lat (data self) with
  | Some l => copy l
  | None => alloc Np.empty
  end.

(** [ds.sel(time=slice(a, b))] on an increasing time index: the positions
    from the first entry not before [a] up to the last entry not after
    [b], taken along the time axis of every variable.  An index that is not
    increasing, which pandas slices by other rules or refuses, is not part
    of the model and is rejected. *)
Definition sel_time (ds : Dataset) (a b : Timestamp) : result Dataset :=
  if is_monotonic_increasing (ds_time ds) then
    let lo := searchsorted_left (ds_time ds) a in
    let hi := searchsorted_right (ds_time ds) b in
    Ok {| ds_time := islice lo hi (ds_time ds);
          ds_u := islice lo hi (ds_u ds);
          ds_v := islice lo hi (ds_v ds);
          ds_lon := ds_lon ds;
          ds_lat := ds_lat ds |}
  else Raise KeyError.

(** [Forcing.slice_data]; [None] is the empty string of the source, a
    bound is given to the second. *)
Definition slice_data (self : t) (start_time end_time : option Timestamp)
  : result Dataset :=
  let start_time :=
    match start_time with
    | Some a => Ok a
    | None => match head (time self) with
              | Some a => Ok a
              | None => Raise IndexError
              end
    end in
  match start_time with
  | Raise e => Raise e
  | Ok a =>
      let end_time :=
        match end_time with
        | Some b => Ok b
        | None => match last (time self) with
                  | Some b => Ok b
                  | None => Raise IndexError
                  end
        end in
      match end_time with
      | Raise e => Raise e
      | Ok b => sel_time (data self) a b
      end
  end.

(** [Forcing.times_in_day]: the slice between the first and the last
    second of the day, which the source spells as strings. *)
Definition times_in_day (self : t) (day : Timestamp)
  : result (list Timestamp) :=
  let t0 := {| year := year day; month := month day; day := Py.day day;
               hour := 0; minute := 0; second := 0 |} in
  let t1 := {| year := year day; month := month day; day := Py.day day;
               hour := 23; minute := 59; second := 59 |} in
  match slice_data self (Some t0) (Some t1) with
  | Ok ds => Ok (ds_time ds)
  | Raise e => Raise e
  end.

(** [Forcing._point_list]: the (lon, lat) pairs of the grid points the mask
    selects. *)
Definition _point_list (self : t) (mask : ndarray bool)
  : Eff heap (list (float * float)) :=
  (x <- lon self ;;
   y <- lat self ;;
   xs <- deref x ;;
   ys <- deref y ;;
   let lonlat_flat := meshgrid_rows (flat xs) (flat ys) in
   let mask_flat := flat mask in
   lift (boolean_index lonlat_flat mask_flat))%eff.

Section Defaults.

(** [defaults.dflt_frc[kind][format]] and
    [defaults.list_of_placeholders], tables that are not among the
    sources, and [aux.day_list]. *)
Variable dflt_frc : string -> string -> option string.
Variable list_of_placeholders : list string.
Variable day_list : Timestamp -> Timestamp -> list Timestamp.

Definition dflt (kind fmt : string) : result string :=
  match dflt_frc kind fmt with
  | Some s => Ok s
  | None => Raise KeyError
  end.

(** [Forcing.filename]. *)
Definition filename (self : t) (filestring datestring defaults : string)
  : result string :=
  let chosen :=
    match defaults with
    | EmptyString => Ok (filestring, datestring)
    | _ =>
        match dflt "fs" defaults, dflt "ds" defaults,
              dflt "ext" defaults with
        | Ok fs, Ok ds, Ok _ => Ok (fs, ds)
        | Raise e, _, _ | Ok _, Raise e, _ | Ok _, Ok _, Raise e =>
            Raise e
        end
    end in
  match chosen with
  | Raise e => Raise e
  | Ok (filestring, datestring) =>
      let filename :=
        create_filename_obj filestring
          [("Forcing"%string, name self); ("Grid"%string, grid_name self)] in
      let filename :=
        create_filename_time filename [start_time self; end_time self]
          datestring in
      Ok filename
  end.

(** [Forcing.folder]. *)
Definition folder (self : t) (folderstring datestring : string)
  : string :=
  let folder :=
    create_filename_obj folderstring
      [("Grid"%string, grid_name self); ("Forcing"%string, name self)] in
  let folder :=
    create_filename_time folder [start_time self; end_time self]
      datestring in
  clean_filename folder list_of_placeholders.

(** [Forcing.export_forcing] up to the call of the writer: the file and
    folder names that are handed to it.  [preferred_format] is the
    writer's [_preferred_format()]. *)
Definition export_forcing (self : t) (preferred_format : string)
    (out_format filestring datestring folder : option string)
  : result (string * string) :=
  let out_format := default preferred_format out_format in
  match from_option Ok (dflt "fs" out_format) filestring with
  | Raise e => Raise e
  | Ok filestring =>
      match from_option Ok (dflt "ds" out_format) datestring with
      | Raise e => Raise e
      | Ok datestring =>
          match filename self filestring datestring "" with
          | Raise e => Raise e
          | Ok file =>
              match from_option Ok (dflt "fldr" out_format) folder,
                    dflt "ds" "General" with
              | Raise e, _ | Ok _, Raise e => Raise e
              | Ok folderstring, Ok general =>
                  match filename self folderstring general "" with
                  | Raise e => Raise e
                  | Ok dir => Ok (file, dir)
                  end
              end
          end
      end
  end.

(** [Forcing.days]. *)
Definition days (self : t) : list Timestamp :=
  day_list (start_time self) (end_time self).

End Defaults.

(** [forcing.filename(filestring=..., datestring=..., extension=...)], the
    call the writers make: [filename] has the parameters [filestring],
    [datestring] and [defaults] and no [extension], so Python raises
    TypeError before the body runs. *)
Definition filename_with_extension (self : t)
    (filestring datestring extension : string) : result string :=
  Raise TypeError.

End Forcing.

(** ** The plain-text writer ([dnora/wnd/write.py]) *)

Module Write.
Import Py.

(** The open output file: the lines written so far, each ended by a
    newline. *)
Definition file : Type := list string.

(** [file_out.write(line + '\n')]. *)
Definition write (line : string) : Eff file unit :=
  fun f => (f ++ [line], Ok tt).

(** A loop over a list that stops at the first exception. *)
Fixpoint for_each {S A} (l : list A) (body : A -> Eff S unit)
  : Eff S unit :=
  match l with
  | [] => ret tt
  | x :: l' => (_ <- body x ;; for_each l' body)%eff
  end.

(** One row of [np.savetxt(..., fmt='%i')]: the values formatted and
    joined by single spaces. *)
Definition savetxt_row (row : list float) : Eff file unit :=
  (cells <- lift (sequence (map format_i row)) ;;
   write (join " " cells))%eff.

(** [np.savetxt(file_out, X, fmt='%i')] for a two-dimensional [X]. *)
Definition savetxt (X : Forcing.field) : Eff file unit :=
  for_each X savetxt_row.

(** [X * 1000]. *)
Definition times_1000 (X : Forcing.field) : Forcing.field :=
  map (map F64.scale1000) X.

(** [a[n, :, :]]. *)
Definition at_step {S} (a : list Forcing.field) (n : nat)
  : Eff S Forcing.field :=
  match a !! n with
  | Some X => ret X
  | None => raise IndexError
  end.

(** [str(t)[0:10]] for a pandas time stamp: the first ten characters of
    its text, which reads year-month-day, a blank, hours:minutes:seconds. *)
Definition str_date (t : Timestamp) : string :=
  String.substring 0 10 (strftime "%Y-%m-%d %H:%M:%S" t).

(** [ForcingWriter.create_filename]. *)
Definition create_filename (forcing_out : Forcing.t)
    (forcing_in_filename grid_in_filename time_in_filename : bool)
  : result string :=
  let forcing_fn :=
    if forcing_in_filename then "_" +:+ Forcing.name forcing_out
    else EmptyString in
  let grid_fn :=
    if grid_in_filename then "_" +:+ Forcing.grid_name forcing_out
    else EmptyString in
  let time_fn :=
    if time_in_filename then
      match head (Forcing.time forcing_out) with
      | None => Raise IndexError
      | Some first =>
          match last (Forcing.time forcing_out) with
          | None => Raise IndexError
          | Some final => Ok ("_" +:+ str_date first +:+ "_" +:+ str_date final)
          end
      end
    else Ok EmptyString in
  match time_fn with
  | Raise e => Raise e
  | Ok time_fn => Ok (forcing_fn +:+ grid_fn +:+ time_fn)
  end.

Record SWAN : Type := {
  folder : string;
  filestring : string;
  datestring : string
}.

(** [open(output_path, 'w')]: the file is created or emptied. *)
Definition open_w : Eff file unit := fun _ => ([], Ok tt).

(** The body of the inner loop of [SWAN.__call__] for the [n]-th time of
    the day. *)
Definition SWAN_step (forcing : Forcing.t) (times : list Timestamp)
    (n : nat) : Eff file unit :=
  match times !! n with
  | None => raise IndexError
  | Some tn =>
      let time_stamp := strftime "%Y%m%d.%H%M%S" tn in
      (_ <- write time_stamp ;;
       U <- at_step (Forcing.u forcing) n ;;
       _ <- savetxt (times_1000 U) ;;
       _ <- write time_stamp ;;
       V <- at_step (Forcing.v forcing) n ;;
       savetxt (times_1000 V))%eff
  end.

(** The body of the [with open(...)] block of [SWAN.__call__]
    (write.py:89-99): the loop over the days. *)
Definition SWAN_write_days (forcing : Forcing.t) (days : list Timestamp)
  : Eff file unit :=
  for_each days (fun day =>
    (times <- lift (Forcing.times_in_day forcing day) ;;
     for_each (seq 0 (length times)) (SWAN_step forcing times))%eff).

Section Writer.

(** [aux.day_list] and [aux.check_if_folder], which are not among the
    sources.  The second looks for the output folder, creates it when it is
    missing (outside the file modelled here) and tells whether it was
    there. *)
Variable day_list : Timestamp -> Timestamp -> list Timestamp.
Variable check_if_folder : string -> result bool.

(** [SWAN.__call__]; the state is the output file.  The [msg] lines only
    print, and [aux.add_folder_to_filename] only builds the path.  The call
    of [forcing.filename] comes before the file is opened. *)
Definition SWAN_call (self : SWAN) (forcing : Forcing.t)
  : Eff file (string * string) :=
  (existed <- lift (check_if_folder (folder self)) ;;
   output_file <- lift (Forcing.filename_with_extension forcing
                          (filestring self) (datestring self) "asc") ;;
   let days := Forcing.days day_list forcing in
   _ <- open_w ;;
   _ <- SWAN_write_days forcing days ;;
   ret (output_file, folder self))%eff.

End Writer.

End Write.

(** * Properties *)

(** ** Facts on binary64 comparison *)

Module F64Facts.

(** Comparison on the specification side is antisymmetric. *)
Lemma SFcompare_antisym (a b : spec_float) (c : comparison) :
  SFcompare a b = Some c -> SFcompare b a = Some (CompOpp c).
Proof.
  destruct a as [sa|sa| |sa ma ea], b as [sb|sb| |sb mb eb]; simpl;
    intros H; try discriminate; injection H as <-;
    try (destruct sa; reflexivity); try (destruct sb; reflexivity);
    try (destruct sa, sb; reflexivity).
  destruct sa, sb; try reflexivity;
    rewrite (Z.compare_antisym ea eb);
    destruct (ea ?= eb)%Z; simpl; try reflexivity;
    rewrite (ZC4 ma mb), ?CompOpp_involutive; reflexivity.
Qed.

(** Both sides of a comparison fact are read through the specification and
    the order of the operands is turned around. *)
Ltac turn_comparison x y :=
  unfold F64.gt, F64.ge;
  rewrite FloatAxioms.leb_spec, FloatAxioms.ltb_spec;
  unfold SFleb, SFltb;
  let c := fresh "c" in
  let E := fresh "E" in
  destruct (SFcompare (Prim2SF x) (Prim2SF y)) as [c|] eqn:E;
  [rewrite ?(SFcompare_antisym _ _ _ E); destruct c; simpl; congruence
  |discriminate].

(** [x <= y] excludes [x > y]. *)
Lemma le_not_gt (x y : float) :
  PrimFloat.leb x y = true -> F64.gt x y = false.
Proof. turn_comparison x y. Qed.

(** [x < y] excludes [x >= y]. *)
Lemma lt_not_ge (x y : float) :
  PrimFloat.ltb x y = true -> F64.ge x y = false.
Proof. turn_comparison x y. Qed.

(** [x < y] gives [x <= y]. *)
Lemma lt_le (x y : float) :
  PrimFloat.ltb x y = true -> PrimFloat.leb x y = true.
Proof.
  rewrite FloatAxioms.leb_spec, FloatAxioms.ltb_spec. unfold SFleb, SFltb.
  now destruct (SFcompare (Prim2SF x) (Prim2SF y)) as [[| |]|].
Qed.

(** NaN compares false with everything. *)
Lemma nan_not_gt (x y : float) :
  PrimFloat.is_nan x = true -> F64.gt x y = false.
Proof.
  unfold F64.gt, PrimFloat.is_nan. rewrite FloatAxioms.eqb_spec, FloatAxioms.ltb_spec.
  unfold SFeqb, SFltb.
  destruct (Prim2SF x) as [s|s| |s m e]; simpl.
  - discriminate.
  - destruct s; discriminate.
  - intros _. destruct (Prim2SF y); reflexivity.
  - destruct s; rewrite Z.compare_refl, Pos.compare_cont_refl; discriminate.
Qed.

End F64Facts.

(** ** The store and the array primitives *)

Module NpFacts.
Import Np.

Lemma fresh_unused (h : heap) : h !! fresh (dom h) = None.
Proof. apply not_elem_of_dom, is_fresh. Qed.

Lemma deref_ok (h : heap) (l : loc) (a : ndarray float) :
  h !! l = Some a -> deref l h = (h, Ok a).
Proof. intros E. unfold deref. now rewrite E. Qed.

Lemma copy_ok (h : heap) (l : loc) (a : ndarray float) :
  h !! l = Some a ->
  copy l h = (<[fresh (dom h) := a]> h, Ok (fresh (dom h))).
Proof. intros E. unfold copy, bind. now rewrite (deref_ok _ _ _ E). Qed.

Lemma setitem_mask_ok (h : heap) (l : loc) (a : ndarray float)
    (sel : ndarray bool) (v : float) :
  h !! l = Some a -> shape sel = shape a ->
  setitem_mask l sel v h
  = (<[l := NdArray (shape a) (putmask (flat sel) (flat a) v)]> h, Ok tt).
Proof.
  intros E Hs. unfold setitem_mask, bind. rewrite (deref_ok _ _ _ E).
  now rewrite decide_True by exact Hs.
Qed.

End NpFacts.

(** ** The grid filters *)

Module GrdProps.
Import Np Grd NpFacts.

(** Whatever the configuration and the mask, the call copies the depths
    and then stops at the unbound name. *)
Lemma SetMinDepth_run (self : SetMinDepth) (data : loc)
    (mask : ndarray bool) (h : heap) (d : ndarray float) :
  h !! data = Some d ->
  SetMinDepth_call self data mask h
  = (<[fresh (dom h) := d]> h, Raise NameError).
Proof.
  intros Hd. unfold SetMinDepth_call, bind at 1.
  rewrite (deref_ok _ _ _ Hd).
  destruct (F64.ge (to_land self) F64.zero);
    unfold bind, global_np, raise; now rewrite (copy_ok _ _ _ Hd).
Qed.

(** An array of the old store is still there when one array is added. *)
Lemma insert_fresh_old (h : heap) (a : ndarray float) (l : loc)
    (b : ndarray float) :
  h !! l = Some b -> <[fresh (dom h) := a]> h !! l = Some b.
Proof.
  intros Hl. rewrite lookup_insert_ne; [exact Hl|].
  intros E. rewrite <- E, fresh_unused in Hl. discriminate.
Qed.

(** A store with one depth array: 5 m and 30 m at sea, 30 m on land, and a
    sea point without a depth. *)
Definition depths_example : heap :=
  <[1%positive := NdArray [2; 2]%nat [5; 30; 30; nan]%float]> ∅.

Definition mask_example : ndarray bool :=
  NdArray [2; 2]%nat [true; true; false; true].

(** C1 fails on every call: whatever [to_land], the threshold and the
    mask, [SetMinDepth] raises NameError and returns no array, and no array
    of limited depths comes to exist: an array of the store after the call
    is one of the store before it or has the depths of the input. *)
Theorem SetMinDepth_raises_NameError (self : SetMinDepth) (data : loc)
    (mask : ndarray bool) (h : heap) (d : ndarray float) :
  h !! data = Some d ->
  snd (SetMinDepth_call self data mask h) = Raise NameError
  /\ forall (l : loc) (a : ndarray float),
       fst (SetMinDepth_call self data mask h) !! l = Some a ->
       h !! l = Some a \/ a = d.
Proof.
  intros Hd. rewrite (SetMinDepth_run _ _ _ _ _ Hd). simpl.
  split; [reflexivity|]. intros l a Hl.
  destruct (decide (l = fresh (dom h))) as [-> | Hne].
  - rewrite lookup_insert_eq in Hl. injection Hl as <-. now right.
  - rewrite lookup_insert_ne in Hl by congruence. now left.
Qed.

Lemma SetMinDepth_raises_NameError_witness :
  snd (SetMinDepth_call {| min_depth := 10; to_land := -1 |} 1%positive
         mask_example depths_example) = Raise NameError
  /\ snd (SetMinDepth_call {| min_depth := 10; to_land := 0 |} 1%positive
            mask_example depths_example) = Raise NameError.
Proof.
  split.
  - exact (proj1 (SetMinDepth_raises_NameError
                    {| min_depth := 10; to_land := -1 |} 1%positive
                    mask_example depths_example
                    (NdArray [2; 2]%nat [5; 30; 30; nan]%float) eq_refl)).
  - exact (proj1 (SetMinDepth_raises_NameError
                    {| min_depth := 10; to_land := 0 |} 1%positive
                    mask_example depths_example
                    (NdArray [2; 2]%nat [5; 30; 30; nan]%float) eq_refl)).
Defined.

(** C4 holds for [TrivialFilter] and fails for [SetMinDepth].  On depths
    [d], [TrivialFilter] returns an array that was not in the store before,
    with the depths [d], and every array of the store, the input among
    them, is as it was.  [SetMinDepth] also leaves every array of the store
    as it was, but it raises NameError and returns no array. *)
Theorem TrivialFilter_copies_SetMinDepth_raises (self : SetMinDepth)
    (data : loc) (mask : ndarray bool) (h : heap) (d : ndarray float) :
  h !! data = Some d ->
  (exists (new : loc) (h' : heap),
      TrivialFilter_call data mask h = (h', Ok new)
      /\ h !! new = None
      /\ h' !! new = Some d
      /\ forall (l : loc) (a : ndarray float),
           h !! l = Some a -> h' !! l = Some a)
  /\ (exists h' : heap,
        SetMinDepth_call self data mask h = (h', Raise NameError)
        /\ forall (l : loc) (a : ndarray float),
             h !! l = Some a -> h' !! l = Some a).
Proof.
  intros Hd. split.
  - exists (fresh (dom h)), (<[fresh (dom h) := d]> h).
    unfold TrivialFilter_call. rewrite (copy_ok _ _ _ Hd).
    split; [reflexivity|]. split; [apply fresh_unused|].
    split; [apply lookup_insert_eq|].
    intros l a Hl. now apply insert_fresh_old.
  - exists (<[fresh (dom h) := d]> h).
    split; [now apply SetMinDepth_run|].
    intros l a Hl. now apply insert_fresh_old.
Qed.

Lemma TrivialFilter_copies_SetMinDepth_raises_witness :
  (exists (new : loc) (h' : heap),
      TrivialFilter_call 1%positive mask_example depths_example
      = (h', Ok new)
      /\ h' !! new = Some (NdArray [2; 2]%nat [5; 30; 30; nan]%float)
      /\ h' !! 1%positive
         = Some (NdArray [2; 2]%nat [5; 30; 30; nan]%float))
  /\ (exists h' : heap,
        SetMinDepth_call {| min_depth := 10; to_land := -1 |} 1%positive
          mask_example depths_example = (h', Raise NameError)
        /\ h' !! 1%positive
           = Some (NdArray [2; 2]%nat [5; 30; 30; nan]%float)).
Proof.
  destruct (TrivialFilter_copies_SetMinDepth_raises
              {| min_depth := 10; to_land := -1 |} 1%positive mask_example
              depths_example (NdArray [2; 2]%nat [5; 30; 30; nan]%float)
              eq_refl)
    as [(new & h1 & Hrun1 & _ & Hnew & Hold1) (h2 & Hrun2 & Hold2)].
  split.
  - exists new, h1. split; [exact Hrun1|]. split; [exact Hnew|].
    exact (Hold1 1%positive _ eq_refl).
  - exists h2. split; [exact Hrun2|]. exact (Hold2 1%positive _ eq_refl).
Defined.

End GrdProps.

(** ** The meshers *)

Module MeshProps.
Import Np Mesh NpFacts.

(** A sample as [Interpolate] hands it on: itself when strictly positive,
    zero otherwise. *)
Definition clamped (x : float) : float :=
  if F64.gt x F64.zero then x else F64.zero.

Lemma putmask_not_positive (xs : list float) :
  putmask (map negb (map (fun d => F64.gt d F64.zero) xs)) xs F64.zero
  = map clamped xs.
Proof.
  induction xs as [|x xs IH]; [reflexivity|]. simpl. rewrite IH.
  unfold clamped. now destruct (F64.gt x F64.zero).
Qed.

Lemma clamped_cases (x : float) :
  (PrimFloat.leb x F64.zero = true \/ PrimFloat.is_nan x = true ->
   clamped x = F64.zero)
  /\ (F64.gt x F64.zero = true -> clamped x = x).
Proof.
  unfold clamped. split.
  - intros [Hle | Hnan].
    + now rewrite (F64Facts.le_not_gt _ _ Hle).
    + now rewrite (F64Facts.nan_not_gt _ _ Hnan).
  - intros ->. reflexivity.
Qed.


Section Interpolation.

Variable griddata :
  list (float * float) -> list float -> ndarray float -> ndarray float ->
  string -> result (ndarray float).

(** The call overwrites the caller's array with the clamped samples, then
    stacks and interpolates them. *)
Lemma Interpolate_run (self : Interpolate) (data : loc)
    (lon lat lonQ latQ : ndarray float) (h : heap) (d : ndarray float) :
  h !! data = Some d ->
  Interpolate_call griddata self data lon lat lonQ latQ h
  = (<[data := NdArray (shape d) (map clamped (flat d))]> h,
     match column_stack (NdArray (shape d) (map clamped (flat d))) lon lat with
     | Ok M => griddata (map snd M) (map fst M) lonQ latQ (method self)
     | Raise e => Raise e
     end).
Proof.
  intros Hd. unfold Interpolate_call, bind at 1.
  rewrite (deref_ok _ _ _ Hd). unfold bind at 1.
  rewrite (setitem_mask_ok _ _ d) by (exact Hd || reflexivity).
  simpl flat. rewrite putmask_not_positive.
  unfold bind at 1. rewrite (deref_ok _ _ (NdArray (shape d) (map clamped (flat d))))
    by apply lookup_insert_eq.
  unfold bind, lift.
  now destruct (column_stack _ lon lat).
Qed.

(** C6.  The values [Interpolate] passes on to the scattered-data
    interpolation are the samples with every non-positive or NaN value
    replaced by zero and every strictly positive value unchanged: they are
    what is stacked with the coordinates and, for one-dimensional samples
    and coordinates of one length, what [griddata] is called on. *)
Theorem Interpolate_clamps_samples (self : Interpolate) (data : loc)
    (lon lat lonQ latQ : ndarray float) (h : heap) (d : ndarray float) :
  h !! data = Some d ->
  exists values : list float,
    length values = length (flat d)
    /\ (forall (i : nat) (x : float), flat d !! i = Some x ->
          (PrimFloat.leb x F64.zero = true \/ PrimFloat.is_nan x = true ->
           values !! i = Some F64.zero)
          /\ (F64.gt x F64.zero = true -> values !! i = Some x))
    /\ snd (Interpolate_call griddata self data lon lat lonQ latQ h)
       = match column_stack (NdArray (shape d) values) lon lat with
         | Ok M => griddata (map snd M) (map fst M) lonQ latQ (method self)
         | Raise e => Raise e
         end
    /\ (forall n nlon nlat : nat,
          shape d = [n] -> shape lon = [nlon] -> shape lat = [nlat] ->
          length (flat d) = length (flat lon) ->
          length (flat lon) = length (flat lat) ->
          snd (Interpolate_call griddata self data lon lat lonQ latQ h)
          = griddata (zip (flat lon) (flat lat)) values lonQ latQ
              (method self)).
Proof.
  intros Hd. exists (map clamped (flat d)).
  split; [apply length_map|]. split; [|split].
  - intros i x Hx. rewrite list_lookup_fmap, Hx. simpl.
    destruct (clamped_cases x) as [Hz Hp].
    split; intros Hc; f_equal; auto.
  - now rewrite (Interpolate_run _ _ _ _ _ _ _ _ Hd).
  - intros n nlon nlat Hsd Hslon Hslat Hl1 Hl2.
    rewrite (Interpolate_run _ _ _ _ _ _ _ _ Hd). simpl snd.
    unfold column_stack. simpl shape. rewrite Hsd, Hslon, Hslat. simpl flat.
    rewrite decide_True by (rewrite length_map; auto).
    rewrite snd_zip, fst_zip; [reflexivity| |];
      rewrite length_zip, ?length_map; lia.
Qed.


End Interpolation.

(** A stand-in for the library routine in the examples below: the target
    filled with the first sample. *)
Definition griddata_stub (points : list (float * float)) (values : list float)
    (lonQ latQ : ndarray float) (method : string) : result (ndarray float) :=
  match values with
  | [] => Raise (Lib "no samples")
  | x :: _ => Ok (full (shape lonQ) x)
  end.

(** Three samples: a depth, a height above sea level, a missing value. *)
Definition samples_example : heap :=
  <[1%positive := NdArray [3%nat] [12.5; -4; nan]%float]> ∅.

Definition coords_example : ndarray float :=
  NdArray [3%nat] [5; 6; 7]%float.

Definition target_example : ndarray float :=
  NdArray [2; 2]%nat [5; 6; 5; 6]%float.

Lemma Interpolate_clamps_samples_witness :
  exists values : list float,
    values !! 0%nat = Some 12.5%float
    /\ values !! 1%nat = Some 0%float
    /\ values !! 2%nat = Some 0%float
    /\ snd (Interpolate_call griddata_stub {| method := "nearest" |}
              1%positive coords_example coords_example target_example
              target_example samples_example)
       = griddata_stub (zip (flat coords_example) (flat coords_example))
           values target_example target_example "nearest".
Proof.
  destruct (Interpolate_clamps_samples griddata_stub
              {| method := "nearest" |} 1%positive
              coords_example coords_example target_example target_example
              samples_example (NdArray [3%nat] [12.5; -4; nan]%float)
              eq_refl)
    as [values [_ [Hval [_ Hrun]]]].
  exists values.
  split; [exact (proj2 (Hval 0%nat 12.5%float eq_refl) eq_refl)|].
  split; [exact (proj1 (Hval 1%nat (-4)%float eq_refl) (or_introl eq_refl))|].
  split; [exact (proj1 (Hval 2%nat nan eq_refl) (or_intror eq_refl))|].
  exact (Hrun 3%nat 3%nat 3%nat eq_refl eq_refl eq_refl eq_refl eq_refl).
Defined.


(** What [Constant] returns: a new array of the shape of the samples, every
    element the configured value. *)
Lemma Constant_run (self : Constant) (data : loc)
    (lon lat lonQ latQ : ndarray float) (h : heap) (d : ndarray float) :
  h !! data = Some d ->
  Constant_call self data lon lat lonQ latQ h
  = (<[fresh (dom h) := NdArray (shape d)
                          (replicate (size_of (shape d)) (val self))]> h,
     Ok (fresh (dom h))).
Proof.
  intros Hd. unfold Constant_call, bind. now rewrite (deref_ok _ _ _ Hd).
Qed.

(** C3 fails: with three samples and a 2 x 2 target, [Constant] returns an
    array of three elements, the shape of the samples, where the claim and
    the docstring of [Mesher.__call__] ask for the shape of the target. *)
Theorem Constant_follows_sample_shape :
  shape target_example = [2; 2]%nat
  /\ Constant_call {| val := 7 |} 1%positive coords_example coords_example
       target_example target_example samples_example
     = (<[2%positive := NdArray [3%nat] [7; 7; 7]%float]> samples_example,
        Ok 2%positive).
Proof.
  split; [reflexivity|].
  rewrite (Constant_run _ _ _ _ _ _ _ (NdArray [3%nat] [12.5; -4; nan]%float))
    by reflexivity.
  reflexivity.
Qed.

End MeshProps.

(** ** Label slicing on an increasing index *)

Module PyFacts.
Import Py.

Lemma monotonic_tail (t : Timestamp) (ts : list Timestamp) :
  is_monotonic_increasing (t :: ts) = true ->
  is_monotonic_increasing ts = true.
Proof.
  simpl. destruct ts as [|t' ts]; [reflexivity|].
  intros H. apply andb_prop in H. apply H.
Qed.

(** In an increasing index the first entry is below all the others. *)
Lemma monotonic_head_le (t : Timestamp) (ts : list Timestamp)
    (n : nat) (x : Timestamp) :
  is_monotonic_increasing (t :: ts) = true ->
  (t :: ts) !! n = Some x -> key t <= key x.
Proof.
  revert t n. induction ts as [|t' ts IH]; intros t n Hm Hn.
  - destruct n as [|n]; [|discriminate]. injection Hn as <-. lia.
  - destruct n as [|n]; [injection Hn as <-; lia|].
    simpl in Hm. apply andb_prop in Hm as [Hle Hm].
    unfold leb in Hle. apply Z.leb_le in Hle.
    specialize (IH t' n Hm Hn). lia.
Qed.

(** Positions before [searchsorted_left] are the entries before [a]. *)
Lemma searchsorted_left_spec (ts : list Timestamp) (a : Timestamp)
    (n : nat) (x : Timestamp) :
  is_monotonic_increasing ts = true -> ts !! n = Some x ->
  (n < searchsorted_left ts a)%nat <-> key x < key a.
Proof.
  revert n. induction ts as [|t ts IH]; intros n Hm Hn; [discriminate|].
  simpl. unfold ltb. destruct (Z.ltb_spec (key t) (key a)) as [Hlt | Hge].
  - destruct n as [|n].
    + injection Hn as <-. split; [intros _; exact Hlt | lia].
    + rewrite <- (IH n (monotonic_tail _ _ Hm) Hn). lia.
  - pose proof (monotonic_head_le _ _ _ _ Hm Hn). lia.
Qed.

(** Positions before [searchsorted_right] are the entries up to [b]. *)
Lemma searchsorted_right_spec (ts : list Timestamp) (b : Timestamp)
    (n : nat) (x : Timestamp) :
  is_monotonic_increasing ts = true -> ts !! n = Some x ->
  (n < searchsorted_right ts b)%nat <-> key x <= key b.
Proof.
  revert n. induction ts as [|t ts IH]; intros n Hm Hn; [discriminate|].
  simpl. unfold leb. destruct (Z.leb_spec (key t) (key b)) as [Hle | Hgt].
  - destruct n as [|n].
    + injection Hn as <-. split; [intros _; exact Hle | lia].
    + rewrite <- (IH n (monotonic_tail _ _ Hm) Hn). lia.
  - pose proof (monotonic_head_le _ _ _ _ Hm Hn). lia.
Qed.

Lemma searchsorted_left_none (ts : list Timestamp) (a : Timestamp) :
  (forall x, head ts = Some x -> key a <= key x) ->
  searchsorted_left ts a = 0%nat.
Proof.
  destruct ts as [|t ts]; [reflexivity|]. intros H. simpl. unfold ltb.
  specialize (H t eq_refl).
  destruct (Z.ltb_spec (key t) (key a)); [lia|reflexivity].
Qed.

Lemma searchsorted_right_all (ts : list Timestamp) (b : Timestamp) :
  (forall x, In x ts -> key x <= key b) ->
  searchsorted_right ts b = length ts.
Proof.
  induction ts as [|t ts IH]; intros H; [reflexivity|]. simpl. unfold leb.
  destruct (Z.leb_spec (key t) (key b)) as [_|Hgt].
  - f_equal. apply IH. intros x Hx. apply H. now right.
  - specialize (H t (or_introl eq_refl)). lia.
Qed.

Lemma islice_all {A} (l : list A) (n : nat) :
  (length l <= n)%nat -> islice 0 n l = l.
Proof.
  intros H. unfold islice. rewrite Nat.sub_0_r, drop_0.
  now apply take_ge.
Qed.

(** The last entry of an increasing index is above all the others. *)
Lemma monotonic_le_last (ts : list Timestamp) (b x : Timestamp) :
  is_monotonic_increasing ts = true -> last ts = Some b ->
  In x ts -> key x <= key b.
Proof.
  induction ts as [|t ts IH]; intros Hm Hl Hx; [contradiction|].
  destruct ts as [|t' ts].
  - injection Hl as <-. destruct Hx as [<-|[]]. lia.
  - assert (Hb : (t' :: ts) !! (length ts) = Some b).
    { rewrite last_lookup in Hl. exact Hl. }
    destruct Hx as [<- | Hx].
    + pose proof (monotonic_head_le _ _ (S (length ts)) b Hm Hb). lia.
    + apply IH; [exact (monotonic_tail _ _ Hm) | exact Hl | exact Hx].
Qed.

End PyFacts.

(** ** The forcing container *)

Module ForcingProps.
Import Np Py Forcing NpFacts PyFacts.

(** Both wind components have one field per time step. *)
Definition aligned (ds : Dataset) : Prop :=
  length (ds_u ds) = length (ds_time ds)
  /\ length (ds_v ds) = length (ds_time ds).

(** The dataset restricted to the positions [lo <= n < hi] of the time
    axis. *)
Definition steps (lo hi : nat) (ds : Dataset) : Dataset :=
  {| ds_time := islice lo hi (ds_time ds);
     ds_u := islice lo hi (ds_u ds);
     ds_v := islice lo hi (ds_v ds);
     ds_lon := ds_lon ds;
     ds_lat := ds_lat ds |}.

(** C8.  On a forcing with a non-empty, increasing time axis of first entry
    [first] and last entry [final], [slice_data] takes an unspecified start
    for [first] and an unspecified end for [final], and returns the time
    steps whose time lies between the two bounds, both included; with both
    bounds unspecified it returns the whole dataset. *)
Theorem slice_data_inclusive (self : Forcing.t)
    (start_time end_time : option Timestamp) (first final : Timestamp) :
  head (time self) = Some first -> last (time self) = Some final ->
  is_monotonic_increasing (time self) = true ->
  aligned (data self) ->
  (exists lo hi : nat,
     slice_data self start_time end_time = Ok (steps lo hi (data self))
     /\ forall (n : nat) (x : Timestamp), time self !! n = Some x ->
          (lo <= n < hi)%nat
          <-> leb (default first start_time) x
              && leb x (default final end_time) = true)
  /\ slice_data self None None = Ok (data self).
Proof.
  intros Hfirst Hfinal Hmono [Hu Hv]. split.
  - exists (searchsorted_left (time self) (default first start_time)),
           (searchsorted_right (time self) (default final end_time)).
    split.
    + unfold slice_data, sel_time. rewrite Hfirst, Hfinal.
      unfold time in Hmono. now destruct start_time, end_time; rewrite Hmono.
    + intros n x Hx.
      pose proof (searchsorted_left_spec _ (default first start_time) _ _
                    Hmono Hx) as Hl.
      pose proof (searchsorted_right_spec _ (default final end_time) _ _
                    Hmono Hx) as Hr.
      unfold leb. rewrite andb_true_iff, !Z.leb_le. lia.
  - unfold slice_data. rewrite Hfirst, Hfinal.
    unfold sel_time, time in *. rewrite Hmono. f_equal.
    rewrite searchsorted_left_none
      by (intros x Hx; rewrite Hfirst in Hx; injection Hx as <-; lia).
    rewrite searchsorted_right_all
      by (intros x Hx; now apply (monotonic_le_last _ _ _ Hmono Hfinal)).
    rewrite !islice_all by lia.
    now destruct (data self).
Qed.

(** C10.  [lon()] (and in the same way [lat()]) on a dataset without the
    coordinate returns a new, empty array and raises nothing; on a dataset
    with the coordinate it returns a new array, another one than the
    dataset's, with the same values. *)
Theorem lon_lat_accessors (self : Forcing.t) (h : heap) :
  match ds_lon (data self) with
  | None =>
      lon self h = (<[fresh (dom h) := Np.empty]> h, Ok (fresh (dom h)))
      /\ flat Np.empty = []
  | Some l =>
      forall a : ndarray float, h !! l = Some a ->
        lon self h = (<[fresh (dom h) := a]> h, Ok (fresh (dom h)))
        /\ fresh (dom h) <> l
  end
  /\ match ds_lat (data self) with
     | None =>
         lat self h = (<[fresh (dom h) := Np.empty]> h, Ok (fresh (dom h)))
         /\ flat Np.empty = []
     | Some l =>
         forall a : ndarray float, h !! l = Some a ->
           lat self h = (<[fresh (dom h) := a]> h, Ok (fresh (dom h)))
           /\ fresh (dom h) <> l
     end.
Proof.
  assert (Hfresh : forall (l : loc) (a : ndarray float),
             h !! l = Some a -> fresh (dom h) <> l).
  { intros l a Hl E. rewrite <- E, fresh_unused in Hl. discriminate. }
  unfold lon, lat. split.
  - destruct (ds_lon (data self)) as [l|]; [|split; reflexivity].
    intros a Hl. split; [now apply copy_ok | now apply (Hfresh l a)].
  - destruct (ds_lat (data self)) as [l|]; [|split; reflexivity].
    intros a Hl. split; [now apply copy_ok | now apply (Hfresh l a)].
Qed.

(** A forcing on the grid TestGrid with three time steps on one day and
    one grid point. *)
Definition at_hour (y m d H : Z) : Timestamp :=
  {| year := y; month := m; day := d; hour := H; minute := 0; second := 0 |}.

Definition forcing_example : Forcing.t :=
  {| grid_name := "TestGrid";
     _name := "NORA3";
     start_time := at_hour 2020 1 1 0;
     end_time := at_hour 2020 1 2 0;
     data := {| ds_time := [at_hour 2020 1 1 0; at_hour 2020 1 1 6;
                            at_hour 2020 1 1 12];
                ds_u := [[[1.5]]; [[2.5]]; [[3.5]]]%float;
                ds_v := [[[-1]]; [[-2]]; [[-3]]]%float;
                ds_lon := None;
                ds_lat := None |} |}.

Lemma slice_data_inclusive_witness :
  (exists lo hi : nat,
     slice_data forcing_example (Some (at_hour 2020 1 1 6)) None
     = Ok (steps lo hi (data forcing_example))
     /\ ((lo <= 0 < hi)%nat <-> false = true)
     /\ ((lo <= 1 < hi)%nat <-> true = true)
     /\ ((lo <= 2 < hi)%nat <-> true = true))
  /\ slice_data forcing_example None None = Ok (data forcing_example).
Proof.
  destruct (slice_data_inclusive forcing_example
              (Some (at_hour 2020 1 1 6)) None
              (at_hour 2020 1 1 0) (at_hour 2020 1 1 12)
              eq_refl eq_refl eq_refl (conj eq_refl eq_refl))
    as [[lo [hi [Hrun Hsel]]] Hall].
  split; [|exact Hall].
  exists lo, hi. split; [exact Hrun|].
  split; [exact (Hsel 0%nat (at_hour 2020 1 1 0) eq_refl)|].
  split; [exact (Hsel 1%nat (at_hour 2020 1 1 6) eq_refl)|].
  exact (Hsel 2%nat (at_hour 2020 1 1 12) eq_refl).
Defined.

(** The defaults of the examples: only the general date format. *)
Definition dflt_frc_example (kind fmt : string) : option string :=
  if String.eqb kind "ds" && String.eqb fmt "General"
  then Some "%Y%m%d%H%M"%string else None.

Definition list_of_placeholders_example : list string :=
  ["$Grid"; "$Forcing"; "$Boundary"; "$T0"; "$T1"]%string.

(** The template of the specification gives the name it states. *)
Example filename_of_spec_template :
  filename dflt_frc_example forcing_example "$Grid_$T0_$T1" "%Y-%m-%d" ""
  = Ok "TestGrid_2020-01-01_2020-01-02"%string.
Proof. vm_compute. reflexivity. Qed.

(** C7 fails for file names: [filename], which [export_forcing] uses for the
    file and for the folder, substitutes the grid and date placeholders and
    leaves [$Boundary], which no object resolves, in the name; [folder], on
    the same template, strips it. *)
Theorem filename_keeps_unresolved_placeholder :
  filename dflt_frc_example forcing_example
    "$Boundary_$Grid_$T0" "%Y-%m-%d" ""
  = Ok "$Boundary_TestGrid_2020-01-01"%string
  /\ folder list_of_placeholders_example forcing_example
       "$Boundary_$Grid_$T0" "%Y-%m-%d"
     = "_TestGrid_2020-01-01"%string
  /\ export_forcing dflt_frc_example forcing_example "SWAN" None
       (Some "$Boundary_$Grid_$T0"%string) (Some "%Y-%m-%d"%string)
       (Some "$Boundary_$Forcing"%string)
     = Ok ("$Boundary_TestGrid_2020-01-01"%string,
           "$Boundary_NORA3"%string).
Proof. vm_compute. repeat split. Qed.

End ForcingProps.

(** ** The plain-text writer *)

Module WriteProps.
Import Py Write PyFacts.

(** The text ['%i'] gives for a value it can format. *)
Definition text_i (x : float) : string :=
  match format_i x with
  | Ok s => s
  | Raise _ => EmptyString
  end.

Definition printable (x : float) : bool :=
  match format_i x with
  | Ok _ => true
  | Raise _ => false
  end.

(** The line of one row of a field. *)
Definition row_text (row : list float) : string :=
  join " " (map text_i row).

(** Every value of the field, once scaled, is finite. *)
Definition writable (X : Forcing.field) : bool :=
  forallb (forallb printable) (times_1000 X).




Lemma sequence_printable (row : list float) :
  forallb printable row = true ->
  sequence (map format_i row) = Ok (map text_i row).
Proof.
  induction row as [|x row IH]; [reflexivity|]. simpl.
  intros H. apply andb_prop in H as [Hx Hrow].
  unfold printable in Hx. unfold text_i at 1.
  destruct (format_i x); [|discriminate]. now rewrite (IH Hrow).
Qed.









(** Modelled from the spec: [aux.day_list] is missing.  By the docstring of
    [Forcing.days] it gives all the days of the time span; this instance,
    used in the examples, covers a span that stays within one month and
    gives each day at midnight. *)
Definition day_list_in_month (start_time end_time : Timestamp)
  : list Timestamp :=
  map (fun d => ForcingProps.at_hour (year start_time) (month start_time)
                  (Z.of_nat d) 0)
    (seq (Z.to_nat (day start_time))
       (Z.to_nat (day end_time - day start_time + 1))).

(** The output folder is there. *)
Definition folder_exists (folder : string) : result bool := Ok true.

Definition writer_example : SWAN :=
  {| folder := "output";
     filestring := "wind$Forcing$Grid";
     datestring := "%Y%m%d" |}.

(** One time step on a 2 x 2 grid, with the [u] field of the
    specification's example. *)
Definition forcing_2x2 : Forcing.t :=
  {| Forcing.grid_name := "TestGrid";
     Forcing._name := "NORA3";
     Forcing.start_time := ForcingProps.at_hour 2020 1 1 0;
     Forcing.end_time := ForcingProps.at_hour 2020 1 1 0;
     Forcing.data :=
       {| Forcing.ds_time := [ForcingProps.at_hour 2020 1 1 0];
          Forcing.ds_u := [[[1.0; 2.0]; [3.0; 4.0]]]%float;
          Forcing.ds_v := [[[0.5; -0.5]; [0; -7.25]]]%float;
          Forcing.ds_lon := None;
          Forcing.ds_lat := None |} |}.


Section Writer.

Variable day_list : Timestamp -> Timestamp -> list Timestamp.
Variable check_if_folder : string -> result bool.

(** C2 fails on every forcing: [SWAN.__call__] never reaches the line that
    opens the output file.  Whatever the forcing, the days and the state of
    the output folder, the call raises, the file is as it was, and no time
    stamp and no grid is written; when the folder check returns, what is
    raised is the TypeError of [forcing.filename(..., extension='asc')]. *)
Theorem SWAN_raises_before_opening (self : SWAN) (forcing : Forcing.t)
    (f : file) :
  fst (SWAN_call day_list check_if_folder self forcing f) = f
  /\ exists e : exn,
       snd (SWAN_call day_list check_if_folder self forcing f) = Raise e
       /\ forall existed : bool,
            check_if_folder (folder self) = Ok existed -> e = TypeError.
Proof.
  unfold SWAN_call, bind, lift.
  destruct (check_if_folder (folder self)) as [existed|e]; simpl.
  - split; [reflexivity|]. exists TypeError. auto.
  - split; [reflexivity|]. exists e. split; [reflexivity|]. discriminate.
Qed.

End Writer.

(** C5 fails at its own example: for the forcing of one day with one time
    step on a 2 x 2 grid, with the output folder in place, [SWAN.__call__]
    raises TypeError before it opens the file; the file that was to hold
    4 lines is not written at all. *)
Theorem SWAN_one_day_writes_no_line :
  SWAN_call day_list_in_month folder_exists writer_example forcing_2x2 []
  = ([], Raise TypeError)
  /\ Forcing.days day_list_in_month forcing_2x2
     = [ForcingProps.at_hour 2020 1 1 0]
  /\ length (Forcing.time forcing_2x2) = 1%nat.
Proof. repeat split. Qed.

End WriteProps.

(** * Further properties *)

(** ** More on binary64 comparison *)

Module F64More.

(** Zero is not below itself, and what is above zero is not below it. *)
Lemma gt_zero_ge (x : float) :
  F64.gt x F64.zero = true -> PrimFloat.leb F64.zero x = true.
Proof. unfold F64.gt. apply F64Facts.lt_le. Qed.

End F64More.

(** ** More on the meshers *)

Module MeshMore.
Import Np Mesh NpFacts MeshProps.

Lemma clamped_idem (x : float) : clamped (clamped x) = clamped x.
Proof.
  unfold clamped. destruct (F64.gt x F64.zero) eqn:Hg; [now rewrite Hg|].
  reflexivity.
Qed.

(** A clamped sample is zero or more, so it is no NaN either. *)
Lemma clamped_nonnegative (x : float) :
  PrimFloat.leb F64.zero (clamped x) = true.
Proof.
  unfold clamped. destruct (F64.gt x F64.zero) eqn:Hg; [|reflexivity].
  now apply F64More.gt_zero_ge.
Qed.

(** X4.  [Constant] returns a new array that has the shape of the samples
    and as many elements as that shape holds, each the configured value; the
    samples stay in the store as they were. *)
Theorem Constant_fills_sample_shape (self : Constant) (data : loc)
    (lon lat lonQ latQ : ndarray float) (h : heap) (d : ndarray float) :
  h !! data = Some d ->
  exists out : ndarray float,
    Constant_call self data lon lat lonQ latQ h
    = (<[fresh (dom h) := out]> h, Ok (fresh (dom h)))
    /\ shape out = shape d
    /\ length (flat out) = size_of (shape d)
    /\ (forall (i : nat) (x : float),
          flat out !! i = Some x -> x = val self)
    /\ <[fresh (dom h) := out]> h !! data = Some d.
Proof.
  intros Hd.
  exists (NdArray (shape d) (replicate (size_of (shape d)) (val self))).
  split; [now apply Constant_run|].
  split; [reflexivity|]. simpl flat.
  split; [apply length_replicate|]. split.
  - intros i x Hx. apply lookup_replicate in Hx. apply Hx.
  - rewrite lookup_insert_ne; [exact Hd|].
    intros E. rewrite <- E, fresh_unused in Hd. discriminate.
Qed.

Lemma Constant_fills_sample_shape_witness :
  exists out : ndarray float,
    Constant_call {| val := 7 |} 1%positive coords_example coords_example
      target_example target_example samples_example
    = (<[fresh (dom samples_example) := out]> samples_example,
       Ok (fresh (dom samples_example)))
    /\ shape out = [3%nat]
    /\ length (flat out) = 3%nat.
Proof.
  destruct (Constant_fills_sample_shape {| val := 7 |} 1%positive
              coords_example coords_example target_example target_example
              samples_example (NdArray [3%nat] [12.5; -4; nan]%float)
              eq_refl) as [out [Hrun [Hs [Hl _]]]].
  exists out. auto.
Defined.

Section Interpolation.

Variable griddata :
  list (float * float) -> list float -> ndarray float -> ndarray float ->
  string -> result (ndarray float).

(** X5.  A second call of [Interpolate] on the same array and coordinates
    finds nothing left to clamp: it leaves the store as the first call left
    it and has the same outcome. *)
Theorem Interpolate_second_call_same (self : Interpolate) (data : loc)
    (lon lat lonQ latQ : ndarray float) (h : heap) (d : ndarray float) :
  h !! data = Some d ->
  Interpolate_call griddata self data lon lat lonQ latQ
    (fst (Interpolate_call griddata self data lon lat lonQ latQ h))
  = Interpolate_call griddata self data lon lat lonQ latQ h.
Proof.
  intros Hd. rewrite (Interpolate_run _ _ _ _ _ _ _ _ _ Hd). simpl fst.
  rewrite (Interpolate_run _ _ _ _ _ _ _ _
             (NdArray (shape d) (map clamped (flat d))))
    by apply lookup_insert_eq.
  simpl shape. simpl flat.
  rewrite insert_insert_eq, map_map.
  rewrite (map_ext _ clamped clamped_idem). reflexivity.
Qed.

(** X6.  When every sample is strictly positive, [Interpolate] leaves the
    store, the caller's array included, exactly as it was. *)
Theorem Interpolate_positive_samples_untouched (self : Interpolate)
    (data : loc) (lon lat lonQ latQ : ndarray float) (h : heap)
    (d : ndarray float) :
  h !! data = Some d ->
  (forall x : float, In x (flat d) -> F64.gt x F64.zero = true) ->
  fst (Interpolate_call griddata self data lon lat lonQ latQ h) = h.
Proof.
  intros Hd Hpos. rewrite (Interpolate_run _ _ _ _ _ _ _ _ _ Hd). simpl fst.
  assert (Hmap : map clamped (flat d) = flat d).
  { rewrite <- (map_id (flat d)) at 2. apply map_ext_in.
    intros x Hx. unfold clamped. now rewrite (Hpos x Hx). }
  rewrite Hmap. apply insert_id. now destruct d.
Qed.

(** X7.  When the one-dimensional samples and coordinates differ in length,
    [Interpolate] raises ValueError without interpolating, and the caller's
    array has been clamped all the same. *)
Theorem Interpolate_length_mismatch (self : Interpolate) (data : loc)
    (lon lat lonQ latQ : ndarray float) (h : heap) (d : ndarray float)
    (n nlon nlat : nat) :
  h !! data = Some d ->
  shape d = [n] -> shape lon = [nlon] -> shape lat = [nlat] ->
  length (flat d) <> length (flat lon)
  \/ length (flat lon) <> length (flat lat) ->
  Interpolate_call griddata self data lon lat lonQ latQ h
  = (<[data := NdArray (shape d) (map clamped (flat d))]> h,
     Raise ValueError).
Proof.
  intros Hd Hsd Hslon Hslat Hne.
  rewrite (Interpolate_run _ _ _ _ _ _ _ _ _ Hd). f_equal.
  unfold column_stack. simpl shape. rewrite Hsd, Hslon, Hslat. simpl flat.
  rewrite decide_False; [reflexivity|].
  rewrite length_map. intros [E1 E2]. destruct Hne; contradiction.
Qed.

(** X8.  No negative value and no NaN reaches the interpolation: every
    value [Interpolate] stacks with the coordinates is zero or more. *)
Theorem Interpolate_passes_nonnegative (self : Interpolate) (data : loc)
    (lon lat lonQ latQ : ndarray float) (h : heap) (d : ndarray float) :
  h !! data = Some d ->
  exists values : list float,
    snd (Interpolate_call griddata self data lon lat lonQ latQ h)
    = match column_stack (NdArray (shape d) values) lon lat with
      | Ok M => griddata (map snd M) (map fst M) lonQ latQ (method self)
      | Raise e => Raise e
      end
    /\ forall x : float, In x values ->
         PrimFloat.leb F64.zero x = true /\ PrimFloat.is_nan x = false.
Proof.
  intros Hd. exists (map clamped (flat d)).
  split; [now rewrite (Interpolate_run _ _ _ _ _ _ _ _ _ Hd)|].
  intros x Hx. apply in_map_iff in Hx as [y [<- _]].
  pose proof (clamped_nonnegative y) as Hle. split; [exact Hle|].
  destruct (PrimFloat.is_nan (clamped y)) eqn:Hnan; [|reflexivity].
  pose proof (F64Facts.nan_not_gt _ F64.zero Hnan) as Hg.
  unfold clamped in *. destruct (F64.gt y F64.zero) eqn:Hy.
  - congruence.
  - vm_compute in Hnan. discriminate.
Qed.

End Interpolation.

Lemma Interpolate_second_call_same_witness :
  Interpolate_call griddata_stub {| method := "nearest" |} 1%positive
    coords_example coords_example target_example target_example
    (fst (Interpolate_call griddata_stub {| method := "nearest" |}
            1%positive coords_example coords_example target_example
            target_example samples_example))
  = Interpolate_call griddata_stub {| method := "nearest" |} 1%positive
      coords_example coords_example target_example target_example
      samples_example.
Proof.
  exact (Interpolate_second_call_same griddata_stub
           {| method := "nearest" |} 1%positive coords_example
           coords_example target_example target_example samples_example
           (NdArray [3%nat] [12.5; -4; nan]%float) eq_refl).
Defined.

(** Two depths below the sea surface. *)
Definition wet_samples_example : heap :=
  <[1%positive := NdArray [2%nat] [12.5; 40]%float]> ∅.

Definition short_coords_example : ndarray float :=
  NdArray [2%nat] [5; 6]%float.

Lemma Interpolate_positive_samples_untouched_witness :
  fst (Interpolate_call griddata_stub {| method := "nearest" |} 1%positive
         short_coords_example short_coords_example target_example
         target_example wet_samples_example)
  = wet_samples_example.
Proof.
  apply (Interpolate_positive_samples_untouched griddata_stub
           {| method := "nearest" |} 1%positive short_coords_example
           short_coords_example target_example target_example
           wet_samples_example (NdArray [2%nat] [12.5; 40]%float) eq_refl).
  intros x [<- | [<- | []]]; reflexivity.
Defined.

Lemma Interpolate_length_mismatch_witness :
  Interpolate_call griddata_stub {| method := "nearest" |} 1%positive
    short_coords_example short_coords_example target_example target_example
    samples_example
  = (<[1%positive := NdArray [3%nat] [12.5; 0; 0]%float]> samples_example,
     Raise ValueError).
Proof.
  apply (Interpolate_length_mismatch griddata_stub
           {| method := "nearest" |} 1%positive short_coords_example
           short_coords_example target_example target_example
           samples_example (NdArray [3%nat] [12.5; -4; nan]%float)
           3%nat 2%nat 2%nat eq_refl eq_refl eq_refl eq_refl).
  left. simpl. lia.
Defined.

Lemma Interpolate_passes_nonnegative_witness :
  exists values : list float,
    snd (Interpolate_call griddata_stub {| method := "nearest" |}
           1%positive coords_example coords_example target_example
           target_example samples_example)
    = match column_stack (NdArray [3%nat] values) coords_example
              coords_example with
      | Ok M => griddata_stub (map snd M) (map fst M) target_example
                  target_example "nearest"
      | Raise e => Raise e
      end
    /\ forall x : float, In x values ->
         PrimFloat.leb F64.zero x = true /\ PrimFloat.is_nan x = false.
Proof.
  exact (Interpolate_passes_nonnegative griddata_stub
           {| method := "nearest" |} 1%positive coords_example
           coords_example target_example target_example samples_example
           (NdArray [3%nat] [12.5; -4; nan]%float) eq_refl).
Defined.

End MeshMore.

(** ** More on label slicing *)

Module PyMore.
Import Py PyFacts.

Lemma monotonic_drop (n : nat) (ts : list Timestamp) :
  is_monotonic_increasing ts = true ->
  is_monotonic_increasing (drop n ts) = true.
Proof.
  revert ts. induction n as [|n IH]; intros ts H; [now rewrite drop_0|].
  destruct ts as [|t ts]; [reflexivity|].
  simpl. apply IH. exact (monotonic_tail _ _ H).
Qed.

Lemma monotonic_take (n : nat) (ts : list Timestamp) :
  is_monotonic_increasing ts = true ->
  is_monotonic_increasing (take n ts) = true.
Proof.
  revert n. induction ts as [|t ts IH]; intros n H.
  - now destruct n.
  - destruct n as [|n]; [reflexivity|].
    specialize (IH n (monotonic_tail _ _ H)).
    destruct ts as [|t' ts]; [now destruct n|].
    destruct n as [|n]; [reflexivity|].
    simpl in H. apply andb_prop in H as [Hle _].
    change (take (S (S n)) (t :: t' :: ts))
      with (t :: t' :: take n ts).
    change (take (S n) (t' :: ts)) with (t' :: take n ts) in IH.
    simpl. simpl in IH. now rewrite Hle.
Qed.

Lemma monotonic_islice (lo hi : nat) (ts : list Timestamp) :
  is_monotonic_increasing ts = true ->
  is_monotonic_increasing (islice lo hi ts) = true.
Proof. intros H. now apply monotonic_take, monotonic_drop. Qed.

Lemma islice_length {A} (lo hi : nat) (l : list A) :
  length (islice lo hi l) = Nat.min (hi - lo) (length l - lo).
Proof. unfold islice. now rewrite length_take, length_drop. Qed.

(** The entries of a slice are the entries at the positions it names. *)
Lemma islice_In {A} (lo hi : nat) (l : list A) (x : A) :
  In x (islice lo hi l)
  <-> exists n : nat, (lo <= n < hi)%nat /\ l !! n = Some x.
Proof.
  unfold islice. rewrite <- list_elem_of_In, list_elem_of_lookup. split.
  - intros [k Hk]. apply lookup_take_Some in Hk as [Hk Hlt].
    rewrite lookup_drop in Hk. exists (lo + k)%nat. split; [lia|exact Hk].
  - intros [n [Hn Hx]]. exists (n - lo)%nat.
    apply lookup_take_Some. split; [|lia].
    rewrite lookup_drop. now replace (lo + (n - lo))%nat with n by lia.
Qed.

(** An end before the start leaves no position between the two bounds. *)
Lemma searchsorted_right_le_left (ts : list Timestamp) (a b : Timestamp) :
  key b < key a ->
  (searchsorted_right ts b <= searchsorted_left ts a)%nat.
Proof.
  intros Hba. induction ts as [|t ts IH]; [reflexivity|]. simpl.
  unfold leb, ltb.
  destruct (Z.leb_spec (key t) (key b)) as [Hle|Hgt]; [|lia].
  destruct (Z.ltb_spec (key t) (key a)); lia.
Qed.

(** The fields of a time stamp are those of a calendar date and a time of
    day. *)
Definition valid (t : Timestamp) : bool :=
  (1 <=? month t) && (month t <=? 12) && (1 <=? day t) && (day t <=? 31)
  && (0 <=? hour t) && (hour t <=? 23)
  && (0 <=? minute t) && (minute t <=? 59)
  && (0 <=? second t) && (second t <=? 59).

Definition same_date (a b : Timestamp) : bool :=
  (year a =? year b) && (month a =? month b) && (day a =? day b).

(** Between the first and the last second of a day lie the times of that
    date, and no others. *)
Lemma day_window (day t : Timestamp) :
  valid day = true -> valid t = true ->
  (key {| year := year day; month := month day; day := Py.day day;
          hour := 0; minute := 0; second := 0 |} <= key t
   /\ key t <= key {| year := year day; month := month day;
                      day := Py.day day;
                      hour := 23; minute := 59; second := 59 |})
  <-> same_date day t = true.
Proof.
  unfold valid, same_date.
  rewrite !andb_true_iff, !Z.eqb_eq, !Z.leb_le. unfold key; simpl.
  intros Hd Ht. lia.
Qed.

End PyMore.

(** ** More on the forcing container *)

Module ForcingMore.
Import Np Py Forcing NpFacts PyFacts PyMore ForcingProps.

(** X9.  On a forcing without time steps, [slice_data] raises IndexError as
    soon as one bound is left unspecified; with both bounds given it raises
    nothing and returns a dataset without time steps. *)
Theorem slice_data_empty_series (self : Forcing.t)
    (start_time end_time : option Timestamp) :
  time self = [] ->
  match start_time, end_time with
  | Some a, Some b =>
      exists ds : Dataset,
        slice_data self start_time end_time = Ok ds
        /\ ds_time ds = [] /\ ds_u ds = [] /\ ds_v ds = []
  | _, _ => slice_data self start_time end_time = Raise IndexError
  end.
Proof.
  intros He. unfold slice_data, sel_time. rewrite He.
  unfold time in He. rewrite He.
  destruct start_time as [a|], end_time as [b|]; simpl; try reflexivity.
  eexists. split; [reflexivity|]. simpl. unfold islice. simpl.
  now rewrite !take_0.
Qed.

(** A forcing whose reader found nothing. *)
Definition empty_forcing_example : Forcing.t :=
  {| grid_name := "TestGrid";
     _name := "NORA3";
     start_time := at_hour 2020 1 1 0;
     end_time := at_hour 2020 1 2 0;
     data := {| ds_time := []; ds_u := []; ds_v := [];
                ds_lon := None; ds_lat := None |} |}.

Lemma slice_data_empty_series_witness :
  slice_data empty_forcing_example None (Some (at_hour 2020 1 1 6))
  = Raise IndexError
  /\ exists ds : Dataset,
       slice_data empty_forcing_example (Some (at_hour 2020 1 1 0))
         (Some (at_hour 2020 1 1 6)) = Ok ds
       /\ ds_time ds = [] /\ ds_u ds = [] /\ ds_v ds = [].
Proof.
  split.
  - exact (slice_data_empty_series empty_forcing_example None
             (Some (at_hour 2020 1 1 6)) eq_refl).
  - exact (slice_data_empty_series empty_forcing_example
             (Some (at_hour 2020 1 1 0)) (Some (at_hour 2020 1 1 6))
             eq_refl).
Defined.

(** X10.  What [slice_data] returns can be sliced again: its time axis is
    increasing, its wind components have one field per time step, its times
    are times of the forcing, and its coordinates are the forcing's. *)
Theorem slice_data_keeps_invariants (self : Forcing.t)
    (start_time end_time : option Timestamp) (ds : Dataset) :
  is_monotonic_increasing (time self) = true ->
  aligned (data self) ->
  slice_data self start_time end_time = Ok ds ->
  is_monotonic_increasing (ds_time ds) = true
  /\ aligned ds
  /\ (forall x : Timestamp, In x (ds_time ds) -> In x (time self))
  /\ ds_lon ds = ds_lon (data self)
  /\ ds_lat ds = ds_lat (data self).
Proof.
  intros Hmono [Hu Hv] Hrun.
  assert (Hsel : exists a b, sel_time (data self) a b = Ok ds).
  { unfold slice_data in Hrun.
    destruct start_time as [a|]; [|destruct (head (time self)) as [a|]];
      try discriminate;
      (destruct end_time as [b|]; [|destruct (last (time self)) as [b|]];
       try discriminate; eauto). }
  destruct Hsel as (a & b & Hsel). unfold sel_time in Hsel.
  unfold time in *. rewrite Hmono in Hsel. injection Hsel as <-. simpl.
  split; [now apply monotonic_islice|].
  split; [unfold aligned; simpl; rewrite !islice_length; lia|].
  split; [|split; reflexivity].
  intros x Hx. apply islice_In in Hx as [n [_ Hn]].
  apply list_elem_of_In. eapply list_elem_of_lookup_2. exact Hn.
Qed.

Lemma slice_data_keeps_invariants_witness :
  is_monotonic_increasing
    (ds_time (steps 1 3 (data forcing_example))) = true
  /\ aligned (steps 1 3 (data forcing_example)).
Proof.
  destruct (slice_data_keeps_invariants forcing_example
              (Some (at_hour 2020 1 1 6)) None
              (steps 1 3 (data forcing_example))
              eq_refl (conj eq_refl eq_refl) eq_refl)
    as [Hm [Ha _]].
  split; assumption.
Defined.

(** X11.  An end bound before the start bound selects no time step, and
    raises nothing. *)
Theorem slice_data_end_before_start (self : Forcing.t)
    (a b : Timestamp) :
  is_monotonic_increasing (time self) = true ->
  key b < key a ->
  exists ds : Dataset,
    slice_data self (Some a) (Some b) = Ok ds
    /\ ds_time ds = [] /\ ds_u ds = [] /\ ds_v ds = [].
Proof.
  intros Hmono Hba. unfold slice_data, sel_time.
  unfold time in Hmono. rewrite Hmono.
  pose proof (searchsorted_right_le_left (ds_time (data self)) a b Hba) as Hle.
  eexists. split; [reflexivity|]. simpl. unfold islice.
  replace (searchsorted_right (ds_time (data self)) b
           - searchsorted_left (ds_time (data self)) a)%nat
    with 0%nat by lia.
  now rewrite !take_0.
Qed.

Lemma slice_data_end_before_start_witness :
  exists ds : Dataset,
    slice_data forcing_example (Some (at_hour 2020 1 1 12))
      (Some (at_hour 2020 1 1 6)) = Ok ds
    /\ ds_time ds = [] /\ ds_u ds = [] /\ ds_v ds = [].
Proof.
  exact (slice_data_end_before_start forcing_example
           (at_hour 2020 1 1 12) (at_hour 2020 1 1 6) eq_refl eq_refl).
Defined.

(** X12.  On an increasing time axis of calendar times, [times_in_day]
    returns the time steps of the forcing that fall on the date of the day,
    and only those. *)
Theorem times_in_day_selects_date (self : Forcing.t) (day : Timestamp) :
  is_monotonic_increasing (time self) = true ->
  forallb valid (time self) = true ->
  valid day = true ->
  exists ts : list Timestamp,
    times_in_day self day = Ok ts
    /\ forall x : Timestamp,
         In x ts <-> In x (time self) /\ same_date day x = true.
Proof.
  intros Hmono Hvalid Hday. rewrite forallb_forall in Hvalid.
  unfold times_in_day, slice_data, sel_time.
  pose proof Hmono as Hm. unfold time in Hm. rewrite Hm.
  eexists. split; [reflexivity|]. simpl. fold (time self).
  intros x. rewrite islice_In. split.
  - intros [n [Hn Hx]].
    assert (Hin : In x (time self)).
    { apply list_elem_of_In. eapply list_elem_of_lookup_2. exact Hx. }
    split; [exact Hin|].
    apply (day_window day x Hday (Hvalid x Hin)).
    pose proof (searchsorted_left_spec _
                  {| year := year day; month := month day;
                     day := Py.day day;
                     hour := 0; minute := 0; second := 0 |} _ _ Hmono Hx).
    pose proof (searchsorted_right_spec _
                  {| year := year day; month := month day;
                     day := Py.day day;
                     hour := 23; minute := 59; second := 59 |} _ _ Hmono Hx).
    lia.
  - intros [Hin Hsame].
    apply list_elem_of_In, list_elem_of_lookup in Hin as [n Hx].
    exists n. split; [|exact Hx].
    assert (Hv : valid x = true).
    { apply Hvalid, list_elem_of_In. eapply list_elem_of_lookup_2. exact Hx. }
    apply (day_window day x Hday Hv) in Hsame.
    pose proof (searchsorted_left_spec _
                  {| year := year day; month := month day;
                     day := Py.day day;
                     hour := 0; minute := 0; second := 0 |} _ _ Hmono Hx).
    pose proof (searchsorted_right_spec _
                  {| year := year day; month := month day;
                     day := Py.day day;
                     hour := 23; minute := 59; second := 59 |} _ _ Hmono Hx).
    lia.
Qed.

Lemma times_in_day_selects_date_witness :
  exists ts : list Timestamp,
    times_in_day forcing_example (at_hour 2020 1 1 0) = Ok ts
    /\ forall x : Timestamp,
         In x ts
         <-> In x (time forcing_example)
             /\ same_date (at_hour 2020 1 1 0) x = true.
Proof.
  exact (times_in_day_selects_date forcing_example (at_hour 2020 1 1 0)
           eq_refl eq_refl eq_refl).
Defined.

End ForcingMore.

(** ** The point list of a forcing *)

Module PointList.
Import Np Py Forcing NpFacts.

(** The values a coordinate accessor reads: those of the dataset's array,
    none when the dataset has no such coordinate. *)
Definition coord_values (h : heap) (c : option loc) : option (list float) :=
  match c with
  | None => Some []
  | Some l => flat <$> h !! l
  end.

Lemma accessor_run (h : heap) (c : option loc) (xs : list float) :
  coord_values h c = Some xs ->
  exists a : ndarray float,
    flat a = xs
    /\ match c with Some l => copy l | None => alloc Np.empty end h
       = (<[fresh (dom h) := a]> h, Ok (fresh (dom h))).
Proof.
  destruct c as [l|]; simpl.
  - destruct (h !! l) as [a|] eqn:Hl; [|discriminate].
    intros [= <-]. exists a. split; [reflexivity|now apply copy_ok].
  - intros [= <-]. exists Np.empty. split; reflexivity.
Qed.

Lemma insert_fresh_keeps (h : heap) (a : ndarray float) (l : loc)
    (b : ndarray float) :
  h !! l = Some b -> <[fresh (dom h) := a]> h !! l = Some b.
Proof.
  intros Hl. rewrite lookup_insert_ne; [exact Hl|].
  intros E. rewrite <- E, fresh_unused in Hl. discriminate.
Qed.

(** The call reads both coordinates through copies and indexes the grid
    points with the flattened mask; the arrays of the store stay. *)
Lemma point_list_run (self : Forcing.t) (mask : ndarray bool) (h : heap)
    (xs ys : list float) :
  coord_values h (ds_lon (data self)) = Some xs ->
  coord_values h (ds_lat (data self)) = Some ys ->
  snd (_point_list self mask h)
  = boolean_index (meshgrid_rows xs ys) (flat mask)
  /\ forall (l : loc) (b : ndarray float),
       h !! l = Some b -> fst (_point_list self mask h) !! l = Some b.
Proof.
  intros Hx Hy.
  destruct (accessor_run h _ _ Hx) as (ax & Hax & Hlon).
  set (h1 := <[fresh (dom h) := ax]> h) in *.
  assert (Hy1 : coord_values h1 (ds_lat (data self)) = Some ys).
  { destruct (ds_lat (data self)) as [l|]; [|exact Hy]. simpl in *.
    destruct (h !! l) as [b|] eqn:Hl; [|discriminate].
    unfold h1. now rewrite (insert_fresh_keeps _ _ _ _ Hl). }
  destruct (accessor_run h1 _ _ Hy1) as (ay & Hay & Hlat).
  assert (Hrun : _point_list self mask h
                 = (<[fresh (dom h1) := ay]> h1,
                    boolean_index (meshgrid_rows xs ys) (flat mask))).
  { unfold _point_list, bind, lon, lat, lift. rewrite Hlon. cbv beta iota.
    rewrite Hlat. cbv beta iota.
    rewrite (deref_ok _ _ ax)
      by (apply insert_fresh_keeps; unfold h1; apply lookup_insert_eq).
    rewrite (deref_ok _ _ ay) by apply lookup_insert_eq.
    now rewrite Hax, Hay. }
  rewrite Hrun. split; [reflexivity|].
  intros l b Hl. simpl. now apply insert_fresh_keeps, insert_fresh_keeps.
Qed.

Lemma meshgrid_rows_length (xs ys : list float) :
  length (meshgrid_rows xs ys) = (length ys * length xs)%nat.
Proof.
  unfold meshgrid_rows. induction ys as [|y ys IH]; [reflexivity|].
  simpl. now rewrite length_app, length_map, IH.
Qed.

(** Row [i * nx + j] of the grid is the [j]-th longitude with the [i]-th
    latitude, and every row is of this kind. *)
Lemma meshgrid_rows_lookup (xs ys : list float) (k : nat)
    (p : float * float) :
  meshgrid_rows xs ys !! k = Some p
  <-> exists (i j : nat) (xj yi : float),
        k = (i * length xs + j)%nat
        /\ xs !! j = Some xj /\ ys !! i = Some yi /\ p = (xj, yi).
Proof.
  unfold meshgrid_rows. revert k.
  induction ys as [|y ys IH]; intros k; simpl.
  - split; [discriminate|]. intros (i & j & xj & yi & _ & _ & H & _).
    discriminate.
  - destruct (Nat.lt_ge_cases k (length xs)) as [Hlt | Hge].
    + rewrite lookup_app_l by now rewrite length_map.
      rewrite list_lookup_fmap. split.
      * destruct (xs !! k) as [xk|] eqn:Hk; [|discriminate].
        intros [= <-]. exists 0%nat, k, xk, y. auto.
      * intros (i & j & xj & yi & -> & Hj & Hi & ->).
        apply lookup_lt_Some in Hj as Hjlt.
        destruct i as [|i]; [|simpl in Hlt; lia].
        simpl in *. injection Hi as <-. now rewrite Hj.
    + rewrite lookup_app_r by now rewrite length_map.
      rewrite length_map, IH. split.
      * intros (i & j & xj & yi & Hk & Hj & Hi & ->).
        exists (S i), j, xj, yi. simpl. repeat split; auto. lia.
      * intros (i & j & xj & yi & -> & Hj & Hi & ->).
        apply lookup_lt_Some in Hj as Hjlt.
        destruct i as [|i]; [simpl in Hge; lia|].
        exists i, j, xj, yi. simpl in *. repeat split; auto. lia.
Qed.

(** What a boolean index keeps: the rows at the positions marked true. *)
Lemma compress_In {A} (mask : list bool) (rows : list A) (p : A) :
  In p (compress mask rows)
  <-> exists k : nat, mask !! k = Some true /\ rows !! k = Some p.
Proof.
  revert rows. induction mask as [|b mask IH]; intros rows; simpl.
  - split; [contradiction|]. intros (k & H & _). discriminate.
  - destruct rows as [|r rows].
    + split; [contradiction|]. intros (k & _ & H). discriminate.
    + destruct b; simpl; rewrite IH; split.
      * intros [<- | (k & Hm & Hr)]; [exists 0%nat; auto|exists (S k); auto].
      * intros ([|k] & Hm & Hr); [left; simpl in Hr; congruence|].
        right. exists k. auto.
      * intros (k & Hm & Hr). exists (S k). auto.
      * intros ([|k] & Hm & Hr); [discriminate|]. exists k. auto.
Qed.

Lemma compress_length {A} (mask : list bool) (rows : list A) :
  length mask = length rows ->
  length (compress mask rows) = length (filter (fun b => b = true) mask).
Proof.
  revert rows. induction mask as [|b mask IH]; intros [|r rows] H;
    try discriminate; [reflexivity|].
  injection H as H. simpl. destruct b.
  - rewrite filter_cons_True by reflexivity. simpl. now rewrite IH.
  - rewrite filter_cons_False by discriminate. now apply IH.
Qed.

(** X13.  With both coordinates and a mask of one entry per grid point,
    [_point_list] returns one (lon, lat) pair per true entry of the mask:
    the pairs of the [j]-th longitude and the [i]-th latitude for which
    entry [i * nx + j] of the flattened mask is true.  The arrays of the
    store stay as they were. *)
Theorem point_list_selects_grid_points (self : Forcing.t)
    (mask : ndarray bool) (h : heap) (xs ys : list float) :
  coord_values h (ds_lon (data self)) = Some xs ->
  coord_values h (ds_lat (data self)) = Some ys ->
  length (flat mask) = (length ys * length xs)%nat ->
  exists pts : list (float * float),
    snd (_point_list self mask h) = Ok pts
    /\ length pts = length (filter (fun b => b = true) (flat mask))
    /\ (forall p : float * float,
          In p pts
          <-> exists (i j : nat) (xj yi : float),
                flat mask !! (i * length xs + j)%nat = Some true
                /\ xs !! j = Some xj /\ ys !! i = Some yi /\ p = (xj, yi))
    /\ forall (l : loc) (b : ndarray float),
         h !! l = Some b -> fst (_point_list self mask h) !! l = Some b.
Proof.
  intros Hx Hy Hlen.
  destruct (point_list_run self mask h xs ys Hx Hy) as [Hrun Hkeep].
  assert (Hl : length (flat mask) = length (meshgrid_rows xs ys))
    by now rewrite meshgrid_rows_length.
  exists (compress (flat mask) (meshgrid_rows xs ys)).
  split; [rewrite Hrun; unfold boolean_index; now rewrite decide_True|].
  split; [now apply compress_length|].
  split; [|exact Hkeep].
  intros p. rewrite compress_In. split.
  - intros (k & Hm & Hr). apply meshgrid_rows_lookup in Hr
      as (i & j & xj & yi & -> & Hj & Hi & ->).
    exists i, j, xj, yi. auto.
  - intros (i & j & xj & yi & Hm & Hj & Hi & ->).
    exists (i * length xs + j)%nat. split; [exact Hm|].
    apply meshgrid_rows_lookup. exists i, j, xj, yi. auto.
Qed.

(** X14.  A mask that has not one entry per grid point makes [_point_list]
    raise IndexError; in particular, without a longitude (or latitude)
    coordinate the grid has no point, and only the empty mask is accepted,
    for which no point is returned. *)
Theorem point_list_mask_mismatch (self : Forcing.t) (mask : ndarray bool)
    (h : heap) (xs ys : list float) :
  coord_values h (ds_lon (data self)) = Some xs ->
  coord_values h (ds_lat (data self)) = Some ys ->
  (length (flat mask) <> (length ys * length xs)%nat ->
   snd (_point_list self mask h) = Raise IndexError)
  /\ (ds_lon (data self) = None \/ ds_lat (data self) = None ->
      snd (_point_list self mask h)
      = match flat mask with
        | [] => Ok []
        | _ :: _ => Raise IndexError
        end).
Proof.
  intros Hx Hy.
  destruct (point_list_run self mask h xs ys Hx Hy) as [Hrun _].
  rewrite Hrun. unfold boolean_index. rewrite meshgrid_rows_length. split.
  - intros Hne. now rewrite decide_False.
  - intros Hnone.
    assert (Hz : (length ys * length xs)%nat = 0%nat).
    { destruct Hnone as [E | E]; rewrite E in *; simpl in *.
      - injection Hx as <-. simpl. lia.
      - injection Hy as <-. reflexivity. }
    rewrite Hz. destruct (flat mask) as [|b m].
    + rewrite decide_True by reflexivity. reflexivity.
    + rewrite decide_False by discriminate. reflexivity.
Qed.

(** Three longitudes and two latitudes in the store, and a forcing whose
    dataset has them as coordinates. *)
Definition coords_store_example : heap :=
  <[1%positive := NdArray [3%nat] [4; 4.5; 5]%float]>
    (<[2%positive := NdArray [2%nat] [60; 61]%float]> ∅).

Definition forcing_with_coords_example : Forcing.t :=
  {| grid_name := "TestGrid";
     _name := "NORA3";
     start_time := ForcingProps.at_hour 2020 1 1 0;
     end_time := ForcingProps.at_hour 2020 1 1 0;
     data := {| ds_time := [ForcingProps.at_hour 2020 1 1 0];
                ds_u := [[[1; 2; 3]; [4; 5; 6]]]%float;
                ds_v := [[[0; 0; 0]; [0; 0; 0]]]%float;
                ds_lon := Some 1%positive;
                ds_lat := Some 2%positive |} |}.

(** The south-west and the north-east corner. *)
Definition corners_example : ndarray bool :=
  NdArray [2; 3]%nat [true; false; false; false; false; true].

Lemma point_list_selects_grid_points_witness :
  exists pts : list (float * float),
    snd (_point_list forcing_with_coords_example corners_example
           coords_store_example) = Ok pts
    /\ length pts = 2%nat
    /\ In (4%float, 60%float) pts
    /\ In (5%float, 61%float) pts.
Proof.
  destruct (point_list_selects_grid_points forcing_with_coords_example
              corners_example coords_store_example
              [4; 4.5; 5]%float [60; 61]%float eq_refl eq_refl eq_refl)
    as (pts & Hrun & Hlen & Hin & _).
  exists pts. split; [exact Hrun|]. split; [exact Hlen|]. split.
  - apply Hin. exists 0%nat, 0%nat, 4%float, 60%float. repeat split.
  - apply Hin. exists 1%nat, 2%nat, 5%float, 61%float. repeat split.
Defined.

Lemma point_list_mask_mismatch_witness :
  snd (_point_list forcing_with_coords_example
         (NdArray [2; 2]%nat [true; false; false; true])
         coords_store_example) = Raise IndexError
  /\ snd (_point_list ForcingProps.forcing_example
            (NdArray [1%nat] [true]) ∅) = Raise IndexError
  /\ snd (_point_list ForcingProps.forcing_example
            (NdArray [0%nat] []) ∅) = Ok [].
Proof.
  split; [|split].
  - apply (proj1 (point_list_mask_mismatch forcing_with_coords_example
                    (NdArray [2; 2]%nat [true; false; false; true])
                    coords_store_example [4; 4.5; 5]%float [60; 61]%float
                    eq_refl eq_refl)).
    simpl. discriminate.
  - exact (proj2 (point_list_mask_mismatch ForcingProps.forcing_example
                    (NdArray [1%nat] [true]) ∅ [] [] eq_refl eq_refl)
             (or_introl eq_refl)).
  - exact (proj2 (point_list_mask_mismatch ForcingProps.forcing_example
                    (NdArray [0%nat] []) ∅ [] [] eq_refl eq_refl)
             (or_introl eq_refl)).
Defined.

End PointList.

(** ** More on file names *)

Module NamesMore.
Import Py Forcing.

(** X15.  With [defaults] given, [filename] takes the file and date
    templates from the defaults tables and ignores the ones passed; it
    raises KeyError when one of the three tables, the extension table
    included, has no entry for [defaults]. *)
Theorem filename_defaults_override
    (dflt_frc : string -> string -> option string) (self : Forcing.t)
    (filestring datestring defaults : string) :
  defaults <> EmptyString ->
  match dflt_frc "fs" defaults, dflt_frc "ds" defaults,
        dflt_frc "ext" defaults with
  | Some fs, Some ds, Some _ =>
      filename dflt_frc self filestring datestring defaults
      = filename dflt_frc self fs ds EmptyString
  | _, _, _ =>
      filename dflt_frc self filestring datestring defaults = Raise KeyError
  end.
Proof.
  intros Hne. destruct defaults as [|c rest]; [contradiction|].
  unfold filename, dflt.
  destruct (dflt_frc "fs" (String c rest)) as [fs|];
    destruct (dflt_frc "ds" (String c rest)) as [ds|];
    destruct (dflt_frc "ext" (String c rest)) as [ext|]; reflexivity.
Qed.

(** Defaults for the SWAN format with no extension entered. *)
Definition dflt_frc_no_ext (kind fmt : string) : option string :=
  if String.eqb fmt "SWAN" then
    if String.eqb kind "fs" then Some "wind$Forcing$Grid"%string
    else if String.eqb kind "ds" then Some "%Y%m%d"%string
    else None
  else None.

Lemma filename_defaults_override_witness :
  filename dflt_frc_no_ext ForcingProps.forcing_example
    "$Grid_$T0" "%Y-%m-%d" "SWAN" = Raise KeyError.
Proof.
  exact (filename_defaults_override dflt_frc_no_ext
           ForcingProps.forcing_example "$Grid_$T0" "%Y-%m-%d" "SWAN"
           ltac:(discriminate)).
Defined.

(** X16.  [create_filename] raises exactly when the times are asked for in
    the name and the forcing has no time step. *)
Theorem create_filename_raises_iff (forcing_out : Forcing.t)
    (forcing_in_filename grid_in_filename time_in_filename : bool) :
  (exists e : exn,
      Write.create_filename forcing_out forcing_in_filename
        grid_in_filename time_in_filename = Raise e)
  <-> time_in_filename = true /\ time forcing_out = [].
Proof.
  unfold Write.create_filename. destruct time_in_filename; simpl.
  - destruct (time forcing_out) as [|t ts] eqn:Ht; simpl.
    + split; [auto|]. intros _. eauto.
    + destruct (last (t :: ts)) as [final|] eqn:Hl.
      * split; [intros [e He]; discriminate|intros [_ H]; discriminate].
      * apply last_None in Hl. discriminate.
  - split; [intros [e He]; discriminate|intros [H _]; discriminate].
Qed.

End NamesMore.

(** ** More on the plain-text writer *)

Module WriteMore.
Import Py Write PyFacts PyMore WriteProps.





(** What ['%i'] can raise on a float. *)
Lemma format_i_error (x : float) (e : exn) :
  format_i x = Raise e -> e = ValueError \/ e = OverflowError.
Proof.
  unfold format_i, int_of_float.
  destruct (Prim2SF x); intros [= <-]; auto.
Qed.

Lemma sequence_fails (row : list float) :
  forallb printable row = false ->
  exists e : exn,
    sequence (map format_i row) = Raise e
    /\ (e = ValueError \/ e = OverflowError).
Proof.
  induction row as [|x row IH]; [discriminate|]. simpl.
  unfold printable at 1. destruct (format_i x) as [s|e] eqn:Hx.
  - simpl. intros H. destruct (IH H) as (e & -> & He). eauto.
  - intros _. exists e. split; [reflexivity|].
    exact (format_i_error _ _ Hx).
Qed.

(** [savetxt] on a field with a value it cannot format writes the rows
    before the first such row and raises. *)
Lemma savetxt_fails (X : Forcing.field) (f : file) :
  forallb (forallb printable) X = false ->
  exists (e : exn) (k : nat),
    (k < length X)%nat
    /\ savetxt X f = (f ++ map row_text (take k X), Raise e)
    /\ (e = ValueError \/ e = OverflowError).
Proof.
  unfold savetxt. revert f. induction X as [|row X IH]; intros f H;
    [discriminate|].
  simpl in H. simpl. unfold bind at 1. unfold savetxt_row at 1, bind, lift.
  destruct (forallb printable row) eqn:Hrow.
  - rewrite (sequence_printable _ Hrow). unfold write.
    fold (row_text row).
    destruct (IH (f ++ [row_text row]) H) as (e & k & Hk & Hrun & He).
    exists e, (S k). split; [simpl; lia|]. split; [|exact He].
    rewrite Hrun. simpl. now rewrite <- app_assoc.
  - destruct (sequence_fails _ Hrow) as (e & -> & He).
    exists e, 0%nat. split; [simpl; lia|]. split; [|exact He].
    simpl. now rewrite app_nil_r.
Qed.




(** X20.  When the first day has a time step and the field [u()[0]], the
    one the loop writes for it, holds a value that cannot be written as an
    integer (a NaN or an infinity), the loop raises ValueError or
    OverflowError and leaves a file that holds the first time stamp and
    fewer rows than the field has. *)
Theorem SWAN_first_field_not_finite (forcing : Forcing.t)
    (day t : Timestamp) (rest ts : list Timestamp) (U : Forcing.field) :
  Forcing.times_in_day forcing day = Ok (t :: ts) ->
  Forcing.u forcing !! 0%nat = Some U ->
  writable U = false ->
  exists (e : exn) (rows : list string),
    SWAN_write_days forcing (day :: rest) []
    = (strftime "%Y%m%d.%H%M%S" t :: rows, Raise e)
    /\ (length rows < length U)%nat
    /\ (e = ValueError \/ e = OverflowError).
Proof.
  intros Hts HU Hw.
  set (stamp := strftime "%Y%m%d.%H%M%S" t).
  destruct (savetxt_fails (times_1000 U) [stamp] Hw)
    as (e & k & Hk & Hsave & He).
  exists e, (map row_text (take k (times_1000 U))).
  split; [|split; [|exact He]].
  - assert (Hfirst : SWAN_step forcing (t :: ts) 0 []
                     = (stamp :: map row_text (take k (times_1000 U)),
                        Raise e)).
    { unfold SWAN_step. change ((t :: ts) !! 0%nat) with (Some t).
      cbv beta iota zeta. fold stamp.
      unfold bind at 1, write. unfold bind at 1, at_step.
      unfold Forcing.field in *. rewrite HU. unfold ret.
      unfold bind at 1. change ([] ++ [stamp]) with [stamp].
      now rewrite Hsave. }
    unfold SWAN_write_days.
    change (for_each (day :: rest) ?body [])
      with (bind (body day) (fun _ => for_each rest body) []).
    unfold bind at 1. unfold bind at 1, lift. rewrite Hts.
    change (seq 0 (length (t :: ts))) with (0%nat :: seq 1 (length ts)).
    change (for_each (0%nat :: ?l) ?body [])
      with (bind (body 0%nat) (fun _ => for_each l body) []).
    unfold bind at 1. now rewrite Hfirst.
  - rewrite length_map, length_take. unfold times_1000 in Hk.
    rewrite length_map in Hk. lia.
Qed.

(** One time step whose [u] field has a missing value in its second row. *)
Definition forcing_with_gap : Forcing.t :=
  {| Forcing.grid_name := "TestGrid";
     Forcing._name := "NORA3";
     Forcing.start_time := ForcingProps.at_hour 2020 1 1 0;
     Forcing.end_time := ForcingProps.at_hour 2020 1 1 0;
     Forcing.data :=
       {| Forcing.ds_time := [ForcingProps.at_hour 2020 1 1 0];
          Forcing.ds_u := [[[1.0; 2.0]; [nan; 4.0]]]%float;
          Forcing.ds_v := [[[0.5; -0.5]; [0; -7.25]]]%float;
          Forcing.ds_lon := None;
          Forcing.ds_lat := None |} |}.



Lemma SWAN_first_field_not_finite_witness :
  exists (e : exn) (rows : list string),
    SWAN_write_days forcing_with_gap [ForcingProps.at_hour 2020 1 1 0] []
    = ("20200101.000000"%string :: rows, Raise e)
    /\ (length rows < 2)%nat
    /\ (e = ValueError \/ e = OverflowError).
Proof.
  exact (SWAN_first_field_not_finite forcing_with_gap
           (ForcingProps.at_hour 2020 1 1 0)
           (ForcingProps.at_hour 2020 1 1 0) [] []
           [[1.0; 2.0]; [nan; 4.0]]%float
           eq_refl eq_refl eq_refl).
Defined.

End WriteMore.
